(** * RAG_ChatBot: passage builder, indexer and answer composer

    A shallow embedding of [app/ingest_api.py], [app/index.py] and
    [app/rag_chain.py], with the properties of the written specification
    stated and settled against it.

    Conventions of the embedding.
    - A Python [str] is a [string]: a sequence of characters with code
      points 0..255.  The character classes below ([isspace], [isdigit],
      [lower], the regular expression classes) are Python's on that range.
    - A Python [dict] whose iteration order is observable is an association
      list in insertion order; lookup takes the first binding of a key.
    - A [float] distance score is a rational number of [Q].
    - External services (the HTTP session, the vector store, the embedding
      and generation models) are parameters of the functions that use
      them. *)

From Stdlib Require Import ZArith QArith Ascii String List Bool Lia Permutation Sorted.
From stdpp Require Import base list strings gmap pretty sorting.

Local Open Scope string_scope.
Local Open Scope list_scope.

(* ===================================================================== *)
(** * Python strings *)
(* ===================================================================== *)

Module PyStr.

Definition ord (c : ascii) : N := N_of_ascii c.

Definition in_range (lo hi : N) (c : ascii) : bool :=
  ((lo <=? ord c) && (ord c <=? hi))%N.

(** [str.isspace] on one character; also the class [\s]. *)
Definition isspace (c : ascii) : bool :=
  in_range 9 13 c || in_range 28 32 c || (ord c =? 133)%N || (ord c =? 160)%N.

(** The class [\d] and [[0-9]]. *)
Definition isdecimal (c : ascii) : bool := in_range 48 57 c.

(** [str.isdigit] on one character: decimal digits and the superscripts
    two, three and one. *)
Definition isdigit_char (c : ascii) : bool :=
  isdecimal c || (ord c =? 178)%N || (ord c =? 179)%N || (ord c =? 185)%N.

Definition isupper (c : ascii) : bool :=
  in_range 65 90 c || (in_range 192 222 c && negb (ord c =? 215)%N).

Definition lower_char (c : ascii) : ascii :=
  if isupper c then ascii_of_N (ord c + 32) else c.

(** The class [\w]. *)
Definition isword (c : ascii) : bool :=
  isdecimal c || in_range 65 90 c || in_range 97 122 c || (ord c =? 95)%N
  || (ord c =? 170)%N || (ord c =? 178)%N || (ord c =? 179)%N
  || (ord c =? 181)%N || (ord c =? 185)%N || (ord c =? 186)%N
  || in_range 188 190 c
  || (in_range 192 255 c && negb (ord c =? 215)%N && negb (ord c =? 247)%N).

(** [s.lower()] *)
Fixpoint lower (s : string) : string :=
  match s with
  | EmptyString => EmptyString
  | String c s' => String (lower_char c) (lower s')
  end.

(** [len(s)] *)
Definition len (s : string) : nat := String.length s.

(** [s.startswith(p)] *)
Fixpoint startswith (p s : string) : bool :=
  match p, s with
  | EmptyString, _ => true
  | String a p', String b s' => Ascii.eqb a b && startswith p' s'
  | String _ _, EmptyString => false
  end.

(** [sub in s] *)
Fixpoint contains (sub s : string) : bool :=
  startswith sub s ||
  match s with
  | EmptyString => false
  | String _ s' => contains sub s'
  end.

(** [s[:n]] for [n >= 0] *)
Fixpoint take (n : nat) (s : string) : string :=
  match n, s with
  | S n', String c s' => String c (take n' s')
  | _, _ => EmptyString
  end.

(** [s[n:]] for [n >= 0] *)
Fixpoint drop (n : nat) (s : string) : string :=
  match n, s with
  | S n', String _ s' => drop n' s'
  | _, _ => s
  end.

Fixpoint lstrip (s : string) : string :=
  match s with
  | String c s' => if isspace c then lstrip s' else s
  | EmptyString => EmptyString
  end.

Fixpoint rstrip (s : string) : string :=
  match s with
  | EmptyString => EmptyString
  | String c s' =>
      match rstrip s' with
      | EmptyString => if isspace c then EmptyString else String c EmptyString
      | r => String c r
      end
  end.

(** [s.strip()] *)
Definition strip (s : string) : string := rstrip (lstrip s).

Fixpoint all_chars (p : ascii -> bool) (s : string) : bool :=
  match s with
  | EmptyString => true
  | String c s' => p c && all_chars p s'
  end.

(** [s.isdigit()]: false on the empty string. *)
Definition isdigit (s : string) : bool :=
  match s with
  | EmptyString => false
  | _ => all_chars isdigit_char s
  end.

(** [s.replace(a, b)] for single characters [a], [b]. *)
Fixpoint replace_char (a b : ascii) (s : string) : string :=
  match s with
  | EmptyString => EmptyString
  | String c s' =>
      String (if Ascii.eqb c a then b else c) (replace_char a b s')
  end.

(** [s.replace(a, "")] for a single character [a]. *)
Fixpoint remove_char (a : ascii) (s : string) : string :=
  match s with
  | EmptyString => EmptyString
  | String c s' =>
      if Ascii.eqb c a then remove_char a s' else String c (remove_char a s')
  end.

(** [s.rsplit(sep, 1)[0]] for a single character [sep]: what precedes the
    last [sep], or all of [s] when it has none. *)
Fixpoint before_last (sep : ascii) (s : string) : option string :=
  match s with
  | EmptyString => None
  | String c s' =>
      match before_last sep s' with
      | Some r => Some (String c r)
      | None => if Ascii.eqb c sep then Some EmptyString else None
      end
  end.

Definition rsplit1_head (sep : ascii) (s : string) : string :=
  match before_last sep s with
  | Some r => r
  | None => s
  end.

(** Truth value of a string: [bool(s)]. *)
Definition nonempty (s : string) : bool :=
  match s with EmptyString => false | _ => true end.

Definition NL : string := String "010"%char EmptyString.

End PyStr.

(* ===================================================================== *)
(** * Regular expressions of Python's [re], by backtracking *)
(* ===================================================================== *)

Module Regex.
Import PyStr.

(** The fragment of the pattern language the program uses.  Quantifiers
    are [Rep greedy lo hi r] for [r{lo,hi}] ([hi = None] is unbounded,
    [greedy = false] the lazy form), [Grp i r] is capturing group [i]
    and [Bnd] is [\b]. *)
Inductive regex : Type :=
| Chr (p : ascii -> bool)
| Eps
| Cat (r1 r2 : regex)
| Rep (greedy : bool) (lo : nat) (hi : option nat) (r : regex)
| Grp (i : nat) (r : regex)
| Bnd.

(** Position in the subject: the character before it and what follows. *)
Record input : Type := Input { prev : option ascii; rest : string }.

Definition caps : Type := list (nat * string).

Definition below (cnt : nat) (hi : option nat) : bool :=
  match hi with
  | None => true
  | Some h => Nat.ltb cnt h
  end.

Definition wordp (c : option ascii) : bool :=
  match c with
  | Some a => isword a
  | None => false
  end.

Definition peek (s : string) : option ascii :=
  match s with
  | String c _ => Some c
  | EmptyString => None
  end.

(** What was read between two positions of the same subject. *)
Definition consumed (st st' : input) : string :=
  take (len (rest st) - len (rest st')) (rest st).

Section Matcher.
Context {A : Type}.

(** [run r st cs k] matches [r] at [st] and hands the position reached
    and the captures to the continuation [k]; a [None] from [k] makes
    the matcher backtrack into the alternatives it still has, in the
    order [re] tries them.  An iteration of a quantifier beyond its
    minimum must read at least one character, which bounds the loop by
    the length of the subject. *)
Fixpoint run (r : regex) (st : input) (cs : caps)
         (k : input -> caps -> option A) {struct r} : option A :=
  match r with
  | Chr p =>
      match rest st with
      | String c s' => if p c then k (Input (Some c) s') cs else None
      | EmptyString => None
      end
  | Eps => k st cs
  | Cat r1 r2 => run r1 st cs (fun st' cs' => run r2 st' cs' k)
  | Rep greedy lo hi r' =>
      (fix loop (fuel cnt : nat) (st : input) (cs : caps)
           {struct fuel} : option A :=
         match fuel with
         | O => None
         | S fuel' =>
             if greedy then
               match
                 (if below cnt hi then
                    run r' st cs (fun st' cs' =>
                      if Nat.ltb (len (rest st')) (len (rest st)) || Nat.ltb cnt lo
                      then loop fuel' (S cnt) st' cs' else None)
                  else None)
               with
               | Some a => Some a
               | None => if Nat.leb lo cnt then k st cs else None
               end
             else
               match (if Nat.leb lo cnt then k st cs else None) with
               | Some a => Some a
               | None =>
                   if below cnt hi then
                     run r' st cs (fun st' cs' =>
                       if Nat.ltb (len (rest st')) (len (rest st)) || Nat.ltb cnt lo
                       then loop fuel' (S cnt) st' cs' else None)
                   else None
               end
         end) (len (rest st) + lo + 1) 0 st cs
  | Grp i r' =>
      run r' st cs (fun st' cs' => k st' ((i, consumed st st') :: cs'))
  | Bnd =>
      if xorb (wordp (prev st)) (wordp (peek (rest st)))
      then k st cs else None
  end.
End Matcher.

Record rmatch : Type :=
  RMatch { m_start : nat; m_whole : string; m_groups : caps }.

(** A match anchored at the given position. *)
Definition match_here (r : regex) (pos : nat) (pv : option ascii)
           (s : string) : option rmatch :=
  match run r (Input pv s) [] (fun st' cs' => Some (st', cs')) with
  | Some (st', cs') => Some (RMatch pos (consumed (Input pv s) st') cs')
  | None => None
  end.

Fixpoint search_at (r : regex) (pos : nat) (pv : option ascii)
         (s : string) : option rmatch :=
  match match_here r pos pv s with
  | Some mt => Some mt
  | None =>
      match s with
      | String c s' => search_at r (S pos) (Some c) s'
      | EmptyString => None
      end
  end.

(** [re.search(r, s)]: the leftmost match. *)
Definition search (r : regex) (s : string) : option rmatch :=
  search_at r 0 None s.

(** [m.group(i)] *)
Fixpoint assoc (i : nat) (cs : caps) : option string :=
  match cs with
  | [] => None
  | (j, g) :: cs' => if Nat.eqb i j then Some g else assoc i cs'
  end.

Definition group (i : nat) (mt : rmatch) : option string :=
  match i with
  | O => Some (m_whole mt)
  | _ => assoc i (m_groups mt)
  end.

(** [re.findall(r, s)] for a pattern without groups: the successive
    leftmost matches, each search resuming where the last match ended
    ([skip] counts the characters of that match still to pass). *)
Fixpoint findall_go (r : regex) (skip : nat) (pv : option ascii)
         (s : string) : list string :=
  match skip with
  | S n =>
      match s with
      | String c s' => findall_go r n (Some c) s'
      | EmptyString => []
      end
  | O =>
      match match_here r 0 pv s with
      | Some mt =>
          m_whole mt ::
            match s with
            | String c s' => findall_go r (pred (len (m_whole mt))) (Some c) s'
            | EmptyString => []
            end
      | None =>
          match s with
          | String c s' => findall_go r 0 (Some c) s'
          | EmptyString => []
          end
      end
  end.

Definition findall (r : regex) (s : string) : list string :=
  findall_go r 0 None s.

(** Pattern builders. *)
Definition chr (a : ascii) : regex := Chr (Ascii.eqb a).

(** One literal character under [re.IGNORECASE]. *)
Definition chr_i (a : ascii) : regex :=
  Chr (fun c => Ascii.eqb (lower_char c) (lower_char a)).

Fixpoint lit (s : string) : regex :=
  match s with
  | EmptyString => Eps
  | String c s' => Cat (chr c) (lit s')
  end.

(** A literal text under [re.IGNORECASE]; also [re.escape(s)] there. *)
Fixpoint lit_i (s : string) : regex :=
  match s with
  | EmptyString => Eps
  | String c s' => Cat (chr_i c) (lit_i s')
  end.

Definition star (r : regex) : regex := Rep true 0 None r.
Definition plus (r : regex) : regex := Rep true 1 None r.
Definition opt (r : regex) : regex := Rep true 0 (Some 1) r.
Definition plus_lazy (r : regex) : regex := Rep false 1 None r.

Fixpoint cat (rs : list regex) : regex :=
  match rs with
  | [] => Eps
  | [r] => r
  | r :: rs' => Cat r (cat rs')
  end.

End Regex.

(* ===================================================================== *)
(** * What a match is *)
(* ===================================================================== *)

Module RegexSpec.
Import Regex.

(** The loop of a quantifier, over any matcher for its body: the inner
    [fix] of [run]. *)
Definition rep_loop {A : Type}
           (body : input -> caps -> (input -> caps -> option A) -> option A)
           (greedy : bool) (lo : nat) (hi : option nat)
           (k : input -> caps -> option A)
  : nat -> nat -> input -> caps -> option A :=
  fix loop (fuel cnt : nat) (st : input) (cs : caps) {struct fuel} : option A :=
    match fuel with
    | O => None
    | S fuel' =>
        if greedy then
          match
            (if below cnt hi then
               body st cs (fun st' cs' =>
                 if Nat.ltb (PyStr.len (rest st')) (PyStr.len (rest st))
                    || Nat.ltb cnt lo
                 then loop fuel' (S cnt) st' cs' else None)
             else None)
          with
          | Some a => Some a
          | None => if Nat.leb lo cnt then k st cs else None
          end
        else
          match (if Nat.leb lo cnt then k st cs else None) with
          | Some a => Some a
          | None =>
              if below cnt hi then
                body st cs (fun st' cs' =>
                  if Nat.ltb (PyStr.len (rest st')) (PyStr.len (rest st))
                     || Nat.ltb cnt lo
                  then loop fuel' (S cnt) st' cs' else None)
              else None
          end
    end.

(** [n] steps of a relation between positions with their captures. *)
Fixpoint iter (R : input -> caps -> input -> caps -> Prop) (n : nat)
         (st : input) (cs : caps) (st' : input) (cs' : caps) : Prop :=
  match n with
  | O => st' = st /\ cs' = cs
  | S n' => exists st1 cs1, R st cs st1 cs1 /\ iter R n' st1 cs1 st' cs'
  end.

(** [Matches r st cs st' cs']: the pattern [r] can read the subject from
    [st] to [st'], turning the captures [cs] into [cs']. *)
Fixpoint Matches (r : regex) (st : input) (cs : caps) (st' : input)
         (cs' : caps) : Prop :=
  match r with
  | Chr p =>
      exists c, rest st = String c (rest st') /\ p c = true
                /\ prev st' = Some c /\ cs' = cs
  | Eps => st' = st /\ cs' = cs
  | Cat r1 r2 =>
      exists st1 cs1, Matches r1 st cs st1 cs1 /\ Matches r2 st1 cs1 st' cs'
  | Rep _ lo hi r' =>
      exists n, lo <= n /\ (forall h, hi = Some h -> n <= h)
                /\ iter (Matches r') n st cs st' cs'
  | Grp i r' =>
      exists cs1, Matches r' st cs st' cs1 /\ cs' = (i, consumed st st') :: cs1
  | Bnd =>
      st' = st /\ cs' = cs
      /\ xorb (wordp (prev st)) (wordp (peek (rest st))) = true
  end.

(** Every character the pattern can read passes the test [P]. *)
Fixpoint reads_only (P : ascii -> bool) (r : regex) : Prop :=
  match r with
  | Chr p => forall c, p c = true -> P c = true
  | Eps | Bnd => True
  | Cat r1 r2 => reads_only P r1 /\ reads_only P r2
  | Rep _ _ _ r' | Grp _ r' => reads_only P r'
  end.


(** The pattern has no capturing group. *)
Fixpoint group_free (r : regex) : Prop :=
  match r with
  | Chr _ | Eps | Bnd => True
  | Cat r1 r2 => group_free r1 /\ group_free r2
  | Rep _ _ _ r' => group_free r'
  | Grp _ _ => False
  end.

(** [s'] is what remains of [s] after some of its characters. *)
Definition suffix_of (s' s : string) : Prop := exists pre, s = pre +:+ s'.

End RegexSpec.

(* ===================================================================== *)
(** * [sorted]: Python's stable sort *)
(* ===================================================================== *)

Module PySort.
Section Sorted.
Context {A K : Type} (lt : K -> K -> bool) (key : A -> K).

(** [x] is placed before the first element whose key is not below its
    own, so that among equal keys the element that came first in the
    input stays first.  A stable sort has one result, whatever the
    algorithm: this is the list [sorted(l, key=key)] returns. *)
Fixpoint insert (x : A) (l : list A) : list A :=
  match l with
  | [] => [x]
  | y :: l' => if lt (key y) (key x) then y :: insert x l' else x :: y :: l'
  end.

Definition sorted (l : list A) : list A := foldr insert [] l.
End Sorted.

(** [sorted(l, key=key, reverse=True)]: every comparison reversed. *)
Definition sorted_reverse {A K : Type} (lt : K -> K -> bool) (key : A -> K)
           (l : list A) : list A :=
  sorted (fun a b => lt b a) key l.

Definition Qltb (a b : Q) : bool := negb (Qle_bool b a).
End PySort.

(* ===================================================================== *)
(** * The vector store *)
(* ===================================================================== *)

Module chroma.

(** The metadata mapping the store keeps with a chunk.  Every key may be
    missing, as the [.get] calls of the program allow for. *)
Record metadata : Type := Meta {
  md_source : option string;
  md_chunk : option nat;
  md_doc_id : option string;
  md_type : option string
}.

(** One stored chunk: the id with its embedding, document and metadata. *)
Record entry (embedding : Type) : Type := Entry {
  e_id : string;
  e_embedding : embedding;
  e_document : string;
  e_metadata : metadata
}.
Arguments Entry {embedding} _ _ _ _.
Arguments e_id {embedding} _.
Arguments e_embedding {embedding} _.
Arguments e_document {embedding} _.
Arguments e_metadata {embedding} _.

(** Modelled from the spec: the vector collection store, an external
    library of which the repository holds no code.  A collection is keyed
    by string id, and the store maps a name to its collection. *)
Abbreviation collection embedding := (gmap string (entry embedding)).
Abbreviation store embedding := (gmap string (gmap string (entry embedding))).

(** Modelled from the spec: clear-by-filter, the store's answer to
    [col.delete(where={})]; [None] stands for an exception.  The empty
    filter selects every entry. *)
Definition clear_by_filter {embedding : Type} (c : collection embedding)
  : option (collection embedding) :=
  Some ∅.

(** Modelled from the spec: batch insert, the store's answer to
    [col.add(...)]: every entry is stored under its id. *)
Definition batch_insert {embedding : Type} (c : collection embedding)
           (es : list (entry embedding)) : option (collection embedding) :=
  Some (foldl (fun m e => <[e_id e := e]> m) c es).

End chroma.

(* ===================================================================== *)
(** * [app/rag_chain.py] *)
(* ===================================================================== *)

Module rag_chain.
Import Regex chroma.

(** A retrieved chunk: [{"text": ..., "meta": ..., "score": ...}]. *)
Record chunk : Type := Chunk {
  text : string;
  meta : metadata;
  score : Q
}.

Definition opt_eqb {A : Type} (eqb : A -> A -> bool) (a b : option A) : bool :=
  match a, b with
  | Some x, Some y => eqb x y
  | None, None => true
  | _, _ => false
  end.

Definition metadata_eqb (a b : metadata) : bool :=
  opt_eqb String.eqb (md_source a) (md_source b)
  && opt_eqb Nat.eqb (md_chunk a) (md_chunk b)
  && opt_eqb String.eqb (md_doc_id a) (md_doc_id b)
  && opt_eqb String.eqb (md_type a) (md_type b).

(** [a == b] on chunk dictionaries. *)
Definition chunk_eqb (a b : chunk) : bool :=
  String.eqb (text a) (text b)
  && metadata_eqb (meta a) (meta b)
  && Qeq_bool (score a) (score b).

(** [ch in l] *)
Definition chunk_in (ch : chunk) (l : list chunk) : bool :=
  existsb (chunk_eqb ch) l.

Definition CHUNK_MAX_CHARS : nat := 800.

Definition _company_keywords : list string :=
  ["company"; "overview"; "summary"; "profile"; "about"; "headquarters";
   "sector"; "industry"].

Definition _numeric_keywords : list string :=
  ["close"; "open"; "volume"; "high"; "low"; "price"].

Definition _shorten_text (text : string) (max_chars : nat) : string :=
  if negb (PyStr.nonempty text) then ""
  else if Nat.leb (PyStr.len text) max_chars then text
  else PyStr.rsplit1_head " " (PyStr.take max_chars text) +:+ " ...".

(** [str(x)] of an optional string: [None] prints as ["None"]. *)
Definition str_opt (o : option string) : string :=
  match o with
  | Some s => s
  | None => "None"
  end.

Fixpoint join (sep : string) (l : list string) : string :=
  match l with
  | [] => ""
  | [s] => s
  | s :: l' => s +:+ sep +:+ join sep l'
  end.

Fixpoint _format_context_lines (i : nat) (chunks : list chunk) : list string :=
  match chunks with
  | [] => []
  | ch :: rest =>
      ("[" +:+ pretty i +:+ "] " +:+ str_opt (md_doc_id (meta ch)) +:+ " | "
       +:+ str_opt (md_type (meta ch)) +:+ ":" +:+ PyStr.NL
       +:+ _shorten_text (text ch) CHUNK_MAX_CHARS)
      :: _format_context_lines (S i) rest
  end.

Definition _format_context (chunks : list chunk) : string :=
  join (PyStr.NL +:+ PyStr.NL) (_format_context_lines 1 chunks).

Definition _is_company_query (query : string) : bool :=
  let q := PyStr.lower query in
  existsb (fun k => PyStr.contains k q) _company_keywords.

Definition _contains_numeric_request (query : string) : bool :=
  let q := PyStr.lower query in
  existsb (fun k => PyStr.contains k q) _numeric_keywords.

(** The test of the first comprehension of [_prioritize_chunks]. *)
Definition is_overview (ch : chunk) : bool :=
  PyStr.contains "overview" (PyStr.lower (default "" (md_doc_id (meta ch))))
  || PyStr.contains "overview" (PyStr.lower (default "" (md_type (meta ch)))).

Definition _prioritize_chunks (chunks : list chunk) (query : string)
  : list chunk :=
  let overviews := List.filter is_overview chunks in
  let others := List.filter (fun ch => negb (chunk_in ch overviews)) chunks in
  let overviews := PySort.sorted PySort.Qltb score overviews in
  let others := PySort.sorted PySort.Qltb score others in
  overviews ++ others.

Definition _build_prompt (query : string) (chunks : list chunk) : string :=
  match (if _contains_numeric_request query then chunks else []) with
  | best :: _ =>
      "Extract the price from this data: " +:+ text best +:+ PyStr.NL
      +:+ "Question: " +:+ query +:+ PyStr.NL +:+ "Answer:"
  | [] =>
      match (if _is_company_query query then chunks else []) with
      | best :: _ =>
          "Summarize this company information: "
          +:+ PyStr.take 400 (text best) +:+ PyStr.NL
          +:+ "Question: " +:+ query +:+ PyStr.NL +:+ "Answer:"
      | [] =>
          let context_simple :=
            foldl (fun acc ch => acc +:+ PyStr.take 200 (text ch) +:+ PyStr.NL)
                  "" (take 2 chunks) in
          "Context: " +:+ context_simple +:+ PyStr.NL +:+ PyStr.NL
          +:+ "Question: " +:+ query +:+ PyStr.NL +:+ "Answer:"
      end
  end.

(** [[-+]?\d{1,3}(?:[,\d]{0,})?(?:\.\d+)?] *)
Definition _NUMERIC_RE : regex :=
  cat [ opt (Chr (fun c => Ascii.eqb c "-" || Ascii.eqb c "+"));
        Rep true 1 (Some 3) (Chr PyStr.isdecimal);
        opt (Rep true 0 None
               (Chr (fun c => Ascii.eqb c "," || PyStr.isdecimal c)));
        opt (Cat (chr ".") (plus (Chr PyStr.isdecimal))) ].

Definition _extract_numeric_from_text (text : string) : string :=
  match findall _NUMERIC_RE text with
  | [] => ""
  | m0 :: _ => PyStr.remove_char "," m0
  end.

(** [(.+?[\.!?])\s]; the dot matches every character but the newline. *)
Definition _first_sentence_re : regex :=
  Cat (Grp 1 (Cat (plus_lazy (Chr (fun c => negb (Ascii.eqb c "010"))))
                  (Chr (fun c => Ascii.eqb c "." || Ascii.eqb c "!"
                                 || Ascii.eqb c "?"))))
      (Chr PyStr.isspace).

Definition _first_sentence (text : string) : string :=
  let text := PyStr.replace_char "010" " " (PyStr.strip text) in
  match search _first_sentence_re text with
  | Some m => default "" (group 1 m)
  | None =>
      PyStr.rsplit1_head " " (PyStr.take 200 text)
      +:+ (if Nat.ltb 200 (PyStr.len text) then "..." else "")
  end.

(** The pattern [close\s+(G)] under [re.IGNORECASE], whose group [G] is
    [[0-9,]+\.?[0-9]*]. *)
Definition _close_re : regex :=
  cat [ lit_i "close";
        plus (Chr PyStr.isspace);
        Grp 1 (cat [ plus (Chr (fun c => PyStr.isdecimal c || Ascii.eqb c ","));
                     opt (chr ".");
                     star (Chr PyStr.isdecimal) ]) ].

(** [not answer_text or len(answer_text) <= 3 or answer_text.isdigit()]:
    the test of [answer] for an output that is not to be used. *)
Definition poor_output (answer_text : string) : bool :=
  negb (PyStr.nonempty answer_text)
  || Nat.leb (PyStr.len answer_text) 3
  || PyStr.isdigit answer_text.

Section Answer.
(** [retrieve(query, k)] on the default collection and the generator
    [gen(prompt, max_new_tokens)]: the two collaborators of [answer]. *)
Variable retrieve : string -> nat -> list chunk.
Variable gen : string -> nat -> string.

Definition answer (query : string) (k max_new_tokens : nat)
  : string * list chunk :=
  let candidates := retrieve query k in
  let prioritized := _prioritize_chunks candidates query in
  let chunks_for_prompt := take 4 prioritized in
  let prompt := _build_prompt query chunks_for_prompt in
  let out := gen prompt max_new_tokens in
  let answer_text := PyStr.strip out in
  if poor_output answer_text
  then
    let other_queries :=
      match chunks_for_prompt with
      | best :: _ => (_first_sentence (text best), chunks_for_prompt)
      | [] => ("I don't know.", chunks_for_prompt)
      end in
    match (if _contains_numeric_request query then chunks_for_prompt
           else []) with
    | best :: _ =>
        let text := text best in
        match (if PyStr.contains "close" (PyStr.lower text)
               then search _close_re text else None) with
        | Some close_match =>
            ("BTC close price: " +:+ default "" (group 1 close_match),
             chunks_for_prompt)
        | None =>
            let num := _extract_numeric_from_text text in
            if PyStr.nonempty num
            then ("Price: " +:+ num, chunks_for_prompt)
            else other_queries
        end
    | [] => other_queries
    end
  else (answer_text, chunks_for_prompt).
End Answer.

End rag_chain.

(* ===================================================================== *)
(** * The prompt as the specification describes it *)
(* ===================================================================== *)

Module Spec.
Import rag_chain.

(** The specification has every chunk text cut to the display length of
    800 characters, with an ellipsis, before a template takes its own
    slice: the text of each chunk goes through [_shorten_text] first. *)
Definition shortened (ch : chunk) : chunk :=
  Chunk (_shorten_text (text ch) CHUNK_MAX_CHARS) (meta ch) (score ch).

Definition capped_build_prompt (query : string) (chunks : list chunk) : string :=
  _build_prompt query (map shortened chunks).

(** [a] comes before [b] in [l]. *)
Definition precedes {A : Type} (a b : A) (l : list A) : Prop :=
  exists l1 l2 l3, l = l1 ++ a :: l2 ++ b :: l3.

(** Ascending scores, each element against all that follow it. *)
Definition ascending (l : list chunk) : Prop :=
  StronglySorted (fun a b => (score a <= score b)%Q) l.


(** The chunks of one flavour (overview or not) and one score. *)
Definition same_rank (flavour : bool) (s : Q) (ch : chunk) : bool :=
  Bool.eqb (is_overview ch) flavour && Qeq_bool (score ch) s.

End Spec.

(* ===================================================================== *)
(** * JSON values and Python dictionaries *)
(* ===================================================================== *)

Module PyVal.

(** The scalars of a decoded JSON document (floating point numbers
    apart: the market-data API sends its figures as strings). *)
Inductive pyval : Type :=
| PNone
| PBool (b : bool)
| PInt (z : Z)
| PStr (s : string).

(** [bool(v)] *)
Definition truthy (v : pyval) : bool :=
  match v with
  | PNone => false
  | PBool b => b
  | PInt z => negb (z =? 0)%Z
  | PStr s => PyStr.nonempty s
  end.

(** [a or b] *)
Definition py_or (a b : pyval) : pyval := if truthy a then a else b.

(** [v is None] *)
Definition is_none (v : pyval) : bool :=
  match v with PNone => true | _ => false end.

(** [str(v)], as an f-string renders [{v}]. *)
Definition py_str (v : pyval) : string :=
  match v with
  | PNone => "None"
  | PBool true => "True"
  | PBool false => "False"
  | PInt z => pretty z
  | PStr s => s
  end.

Definition pyval_eqb (a b : pyval) : bool :=
  match a, b with
  | PNone, PNone => true
  | PBool x, PBool y => Bool.eqb x y
  | PInt x, PInt y => (x =? y)%Z
  | PStr x, PStr y => String.eqb x y
  | PBool x, PInt y | PInt y, PBool x => ((if x then 1 else 0) =? y)%Z
  | _, _ => false
  end.

(** A dictionary with string keys, in insertion order. *)
Definition dict (V : Type) : Type := list (string * V).

(** [d.get(k)] as an option; [d[k]] where the key is known to exist. *)
Fixpoint lookup_key {V : Type} (k : string) (d : dict V) : option V :=
  match d with
  | [] => None
  | (k', v) :: d' => if String.eqb k k' then Some v else lookup_key k d'
  end.

(** [next((k for k in d.keys() if p(k)), None)] *)
Fixpoint first_key {V : Type} (p : string -> bool) (d : dict V)
  : option string :=
  match d with
  | [] => None
  | (k, _) :: d' => if p k then Some k else first_key p d'
  end.

(** [next((v for k, v in d.items() if p(k)), None)] *)
Fixpoint first_value {V : Type} (p : string -> bool) (d : dict V)
  : option V :=
  match d with
  | [] => None
  | (k, v) :: d' => if p k then Some v else first_value p d'
  end.

(** One row of a time series: field name to scalar. *)
Definition row : Type := dict pyval.

(** [row.get(k)]: [None] for a missing key. *)
Definition get (r : row) (k : string) : pyval :=
  default PNone (lookup_key k r).

(** The values a response holds under its top-level keys: a scalar, a
    flat record (such as ["Meta Data"]) or a time series, which maps
    dates to rows. *)
Inductive av_value : Type :=
| VScalar (v : pyval)
| VRecord (r : row)
| VSeries (s : dict row).

Definition av_json : Type := dict av_value.

(** A decoded response body. *)
Inductive body : Type :=
| BDict (d : av_json)
| BList (l : list pyval)
| BScalar (v : pyval).

Inductive exn : Type :=
| RuntimeError (arg : av_value)
| TypeError
| AttributeError
| RequestException
| StoreError.

Inductive result (A : Type) : Type :=
| Ok (a : A)
| Raise (e : exn).
Arguments Ok {A} a.
Arguments Raise {A} e.

(** [l[:n]] for any integer [n]: a negative bound counts from the end. *)
Definition slice_to {A : Type} (n : Z) (l : list A) : list A :=
  if (0 <=? n)%Z then take (Z.to_nat n) l
  else take (length l - Z.to_nat (- n)) l.

End PyVal.

(* ===================================================================== *)
(** * [app/ingest_api.py] *)
(* ===================================================================== *)

Module ingest_api.
Import PyVal Regex.

(** ** [AVClient._get] *)

(** What one pass through [sess.get], [raise_for_status] and [r.json]
    gives: an exception or the decoded body. *)
Inductive attempt : Type :=
| AFail (e : exn)
| AData (data : body).

(** What the client does to the outside world, in order. *)
Inductive event : Type :=
| Request
| Sleep (seconds : Z).

Definition requests_made (w : list event) : nat :=
  length (List.filter (fun e => match e with Request => true | _ => false end) w).

(** [isinstance(data, dict) and any(k.lower() == "note" for k in data.keys())] *)
Definition is_throttled (data : body) : bool :=
  match data with
  | BDict d => existsb (fun kv => String.eqb (PyStr.lower (fst kv)) "note") d
  | _ => false
  end.

(** ["Error Message" in data]: a key of a dictionary, an element of a
    list, a substring of a string; any other value is not iterable. *)
Definition has_error_message (data : body) : result bool :=
  match data with
  | BDict d => Ok (bool_decide (is_Some (lookup_key "Error Message" d)))
  | BList l => Ok (existsb (pyval_eqb (PStr "Error Message")) l)
  | BScalar (PStr s) => Ok (PyStr.contains "Error Message" s)
  | BScalar _ => Raise TypeError
  end.

(** [raise RuntimeError(data["Error Message"])]; indexing a list or a
    string by a string is a [TypeError]. *)
Definition error_of (data : body) : exn :=
  match data with
  | BDict d =>
      match lookup_key "Error Message" d with
      | Some v => RuntimeError v
      | None => TypeError
      end
  | _ => TypeError
  end.

Definition retries_exceeded : exn :=
  RuntimeError (VScalar (PStr "Alpha Vantage rate limit: retries exceeded")).

Section Client.
(** The configured pause and the server: the outcome of the request
    sent after [n] earlier ones. *)
Variable AV_RATE_LIMIT_SLEEP : Z.
Variable http : nat -> attempt.

(** The body of [for _ in range(attempts)], on the trace so far. *)
Fixpoint _get_loop (attempts : nat) (w : list event)
  : result body * list event :=
  match attempts with
  | O => (Raise retries_exceeded, w)
  | S n =>
      let w1 := (w ++ [Request])%list in
      match http (requests_made w) with
      | AFail e => (Raise e, w1)
      | AData data =>
          if is_throttled data
          then _get_loop n (w1 ++ [Sleep AV_RATE_LIMIT_SLEEP])%list
          else
            match has_error_message data with
            | Raise e => (Raise e, w1)
            | Ok true => (Raise (error_of data), w1)
            | Ok false => (Ok data, w1)
            end
      end
  end.

Definition _get (w : list event) : result body * list event :=
  _get_loop 5 w.
End Client.

(** ** Flat records as text *)

(** A value of the record handed to [_kv_to_text]: a scalar, or a
    dictionary or list, of which the function takes no notice. *)
Inductive kv_value : Type :=
| KScalar (v : pyval)
| KNested.



(** ** Passages of the stock time series *)

(** [c = row.get("4. close") or row.get("5. adjusted close")] *)
Definition stock_close (row : row) : pyval :=
py_or (get row "4. close") (get row "5. adjusted close").

(** [v = row.get("6. volume") or row.get("5. volume") or row.get("volume")] *)
Definition stock_volume (row : row) : pyval :=
py_or (py_or (get row "6. volume") (get row "5. volume")) (get row "volume").

(** The f-string of [_ts_stock_passages], on the five values it renders. *)
Definition daily_bar (symbol date_str : string) (o h l c v : pyval) : string :=
symbol +:+ " daily bar on " +:+ date_str +:+ ": open " +:+ py_str o
+:+ ", high " +:+ py_str h +:+ ", low " +:+ py_str l
+:+ ", close " +:+ py_str c +:+ ", volume " +:+ py_str v +:+ ".".

(** The body of the loop of [_ts_stock_passages] for one row. *)
Definition stock_passage (symbol date_str : string) (row : row) : string :=
let o := get row "1. open" in
let h := get row "2. high" in
let l := get row "3. low" in
let c := stock_close row in
let v := stock_volume row in
daily_bar symbol date_str o h l c v.

(** [sorted(series.items(), key=lambda x: x[0], reverse=True)[:max_days]] *)
Definition newest_first {V : Type} (series : dict V) (max_days : Z)
  : list (string * V) :=
  slice_to max_days (PySort.sorted_reverse String.ltb fst series).

(** The loop over the items of the value found under the series key:
    a value that is not a dictionary has no [items], and an item that is
    not a row has no [get]. *)
Definition passages_of (render : string -> row -> string) (series : av_value)
           (max_days : Z) : result (list string) :=
  match series with
  | VSeries s =>
      Ok (map (fun it => render (fst it) (snd it)) (newest_first s max_days))
  | VRecord r =>
      match newest_first r max_days with
      | [] => Ok []
      | _ :: _ => Raise AttributeError
      end
  | VScalar _ => Raise AttributeError
  end.

Definition _ts_stock_passages (symbol : string) (ts_json : av_json)
           (max_days : Z) : result (list string) :=
  match first_key (PyStr.contains "Time Series") ts_json with
  | None => Ok []
  | Some key =>
      if negb (PyStr.nonempty key) then Ok []
      else
        match lookup_key key ts_json with
        | None => Ok []
        | Some series => passages_of (stock_passage symbol) series max_days
        end
  end.

(** ** Passages of the crypto time series *)

(** [\b\d+[ab]\.\s*FIELD\s*\(\s*MARKET\s*\)\b] under [re.I], with both
    names escaped. *)
Definition pat_exact (field_base market : string) : regex :=
  cat [ Bnd; plus (Chr PyStr.isdecimal);
        Chr (fun c => let c := PyStr.lower_char c in
                      Ascii.eqb c "a" || Ascii.eqb c "b");
        chr "."; star (Chr PyStr.isspace); lit_i field_base;
        star (Chr PyStr.isspace); chr "("; star (Chr PyStr.isspace);
        lit_i market; star (Chr PyStr.isspace); chr ")"; Bnd ].

(** [\b\d+[ab]\.\s*FIELD\s*\(\s*[A-Z]{3,}\s*\)\b] under [re.I]. *)
Definition pat_any (field_base : string) : regex :=
  cat [ Bnd; plus (Chr PyStr.isdecimal);
        Chr (fun c => let c := PyStr.lower_char c in
                      Ascii.eqb c "a" || Ascii.eqb c "b");
        chr "."; star (Chr PyStr.isspace); lit_i field_base;
        star (Chr PyStr.isspace); chr "("; star (Chr PyStr.isspace);
        Rep true 3 None
            (Chr (fun c => PyStr.in_range 65 90 c || PyStr.in_range 97 122 c));
        star (Chr PyStr.isspace); chr ")"; Bnd ].

Definition matches (r : regex) (k : string) : bool :=
  bool_decide (is_Some (search r k)).

Definition _pick_crypto_price (row : row) (field_base market : string)
  : pyval :=
  match first_value (matches (pat_exact field_base market)) row with
  | Some v => v
  | None =>
      match first_value (matches (pat_any field_base)) row with
      | Some v => v
      | None =>
          match first_value
                  (fun k => PyStr.contains (PyStr.lower field_base)
                                           (PyStr.lower k)) row with
          | Some v => v
          | None => PNone
          end
      end
  end.

(** The fields of one crypto row, as the loop body of
    [_ts_crypto_passages] computes them. *)
Definition crypto_open (row : row) (market : string) : pyval :=
  let o := get row "1. open" in
  if is_none o
  then py_or (get row ("1a. open (" +:+ market +:+ ")"))
             (get row ("1b. open (" +:+ market +:+ ")"))
  else o.

Definition crypto_high (row : row) (market : string) : pyval :=
  let h := get row "2. high" in
  if is_none h
  then py_or (get row ("2a. high (" +:+ market +:+ ")"))
             (get row ("2b. high (" +:+ market +:+ ")"))
  else h.

Definition crypto_low (row : row) (market : string) : pyval :=
  let l := get row "3. low" in
  if is_none l
  then py_or (get row ("3a. low (" +:+ market +:+ ")"))
             (get row ("3b. low (" +:+ market +:+ ")"))
  else l.

(** ["close" in k.lower()] *)
Definition names_close (k : string) : bool :=
  PyStr.contains "close" (PyStr.lower k).

Definition crypto_close (row : row) (market : string) : pyval :=
  let c := get row "4. close" in
  let c :=
    if is_none c
    then py_or (get row ("4a. close (" +:+ market +:+ ")"))
               (get row ("4b. close (" +:+ market +:+ ")"))
    else c in
  if is_none c
  then default PNone (first_value names_close row)
  else c.

Definition crypto_volume (row : row) : pyval :=
  py_or (get row "5. volume") (get row "6. market cap (usd)").

(** The f-string of [_ts_crypto_passages], on the five values it renders. *)
Definition crypto_bar (symbol market date_str : string) (o h l c v : pyval)
  : string :=
symbol +:+ "/" +:+ market +:+ " on " +:+ date_str
+:+ ": open " +:+ py_str o +:+ ", high " +:+ py_str h +:+ ", low " +:+ py_str l
+:+ ", close " +:+ py_str c +:+ ", volume " +:+ py_str v +:+ ".".

(** The body of the loop of [_ts_crypto_passages] for one row. *)
Definition crypto_passage (symbol market date_str : string) (row : row)
  : string :=
let v := crypto_volume row in
let o := crypto_open row market in
let h := crypto_high row market in
let l := crypto_low row market in
let c := crypto_close row market in
crypto_bar symbol market date_str o h l c v.

Definition _ts_crypto_passages (symbol market : string) (json_obj : av_json)
           (max_days : Z) : result (list string) :=
  match first_key (fun k => PyStr.contains "time series" (PyStr.lower k))
                  json_obj with
  | None => Ok []
  | Some ts_key =>
      if negb (PyStr.nonempty ts_key) then Ok []
      else
        match lookup_key ts_key json_obj with
        | None => Ok []
        | Some series =>
            passages_of (crypto_passage symbol market) series max_days
        end
  end.

End ingest_api.

(* ===================================================================== *)
(** * [app/index.py] *)
(* ===================================================================== *)

Module index.
Import PyVal chroma.

(** A passage: [d["id"]] and [d["text"]] are required, the two tags are
    read with [d.get] and a default. *)
Record doc : Type := Doc {
  id : string;
  text : string;
  source : option string;
  type : option string
}.

(** The calls the indexer makes to its collaborators, in order. *)
Inductive event : Type :=
| GetCollection (name : string)
| CreateCollection (name : string)
| LoadEmbedder
| Encode (texts : list string)
| Delete (name : string)
| Add (name : string) (ids : list string).

Record world (embedding : Type) : Type := World {
  stored : store embedding;
  log : list event
}.
Arguments World {embedding} _ _.
Arguments stored {embedding} _.
Arguments log {embedding} _.

(** [enumerate(l)] *)
Fixpoint enumerate_from {A : Type} (i : nat) (l : list A) : list (nat * A) :=
  match l with
  | [] => []
  | x :: l' => (i, x) :: enumerate_from (S i) l'
  end.

Definition enumerate {A : Type} (l : list A) : list (nat * A) :=
  enumerate_from 0 l.

(** What the inner loop of [build_index] appends to [ids], [texts] and
    [metadatas] for the chunk [ch] of index [i] of the passage [d]. *)
Definition chunk_id (d : doc) (i : nat) : string :=
  id d +:+ "#chunk" +:+ pretty i.

Definition chunk_metadata (d : doc) (i : nat) : metadata :=
  Meta (Some (default "alpha_vantage" (source d))) (Some i) (Some (id d))
       (Some (default "api/alpha_vantage" (type d))).

(** The three lists after the outer loop, kept together: one triple for
    each chunk, in the order of the appends. *)
Definition chunk_rows (docs : list doc) (chunker : string -> list string)
  : list (string * string * metadata) :=
  concat (map (fun d =>
                 map (fun ic => (chunk_id d (fst ic), snd ic,
                                 chunk_metadata d (fst ic)))
                     (enumerate (chunker (text d))))
              docs).

Definition ids_of (rows : list (string * string * metadata)) : list string :=
  map (fun r => fst (fst r)) rows.
Definition texts_of (rows : list (string * string * metadata)) : list string :=
  map (fun r => snd (fst r)) rows.

Section Indexer.
Context {embedding : Type}.

(** The embedding model, one vector for each text of a batch, and the
    two operations of the store the indexer calls; [None] is an
    exception of the store. *)
Variable embed : string -> embedding.
Variable col_delete : collection embedding -> option (collection embedding).
Variable col_add : collection embedding -> list (entry embedding)
                   -> option (collection embedding).

(** [get_collection(name)]: the collection of that name, created empty
    when the store has none. *)
Definition get_collection (name : string) (w : world embedding)
  : world embedding :=
  match stored w !! name with
  | Some _ => World (stored w) (log w ++ [GetCollection name])
  | None =>
      World (<[name := ∅]> (stored w))
            (log w ++ [GetCollection name; CreateCollection name])
  end.

(** The contents of a collection the store is known to hold. *)
Definition contents (name : string) (w : world embedding)
  : collection embedding :=
  default ∅ (stored w !! name).

(** The tuples handed to [col.add]. *)
Definition entries_of (rows : list (string * string * metadata))
  : list (entry embedding) :=
  map (fun r => Entry (fst (fst r)) (embed (snd (fst r))) (snd (fst r))
                      (snd r))
      rows.

Definition build_index (docs : list doc) (chunker : string -> list string)
           (collection_name : string) (w : world embedding)
  : result nat * world embedding :=
  let w := get_collection collection_name w in
  let w := World (stored w) (log w ++ [LoadEmbedder]) in
  let rows := chunk_rows docs chunker in
  let ids := ids_of rows in
  let texts := texts_of rows in
  match texts with
  | [] => (Ok 0, w)
  | _ :: _ =>
      let w := World (stored w) (log w ++ [Encode texts]) in
      let w :=
        match col_delete (contents collection_name w) with
        | Some c =>
            World (<[collection_name := c]> (stored w))
                  (log w ++ [Delete collection_name])
        | None => World (stored w) (log w ++ [Delete collection_name])
        end in
      let w := World (stored w) (log w ++ [Add collection_name ids]) in
      match col_add (contents collection_name w) (entries_of rows) with
      | Some c =>
          (Ok (length ids),
           World (<[collection_name := c]> (stored w)) (log w))
      | None => (Raise StoreError, w)
      end
  end.
End Indexer.

End index.

(* ===================================================================== *)
(** * [app/retriever.py] *)
(* ===================================================================== *)

Module retriever.
Import chroma index.

(** The process as the retriever sees it: whether the module-level
    [_embedder] is set, and the store with the log of calls. *)
Record process (embedding : Type) : Type := Process {
  _embedder : bool;
  world : index.world embedding
}.
Arguments Process {embedding} _ _.
Arguments _embedder {embedding} _.
Arguments world {embedding} _.

(** [zip(documents, metadatas, distances)], one chunk for each triple; the
    shortest list ends it. *)
Fixpoint zip_chunks (docs : list string) (metas : list metadata)
         (dists : list Q) : list rag_chain.chunk :=
  match docs, metas, dists with
  | doc :: docs', m :: metas', dist :: dists' =>
      rag_chain.Chunk doc m dist :: zip_chunks docs' metas' dists'
  | _, _, _ => []
  end.

Section Retriever.
Context {embedding : Type}.

(** The embedding model and the nearest-neighbour query of the store, which
    answers with the documents, metadata and distances of its hits. *)
Variable embed : string -> embedding.
Variable col_query : collection embedding -> embedding -> nat
                     -> list string * list metadata * list Q.

(** [_get_embedder()]: the model is loaded when the global is unset. *)
Definition _get_embedder (p : process embedding) : process embedding :=
  if _embedder p then p
  else Process true (World (stored (world p)) (log (world p) ++ [LoadEmbedder])).

Definition retrieve (query : string) (k : nat) (collection_name : string)
           (p : process embedding) : list rag_chain.chunk * process embedding :=
  let p := Process (_embedder p) (get_collection collection_name (world p)) in
  let p := _get_embedder p in
  let p := Process (_embedder p)
                   (World (stored (world p)) (log (world p) ++ [Encode [query]])) in
  let qvec := embed query in
  let out := col_query (contents collection_name (world p)) qvec k in
  (zip_chunks (fst (fst out)) (snd (fst out)) (snd out), p).
End Retriever.

End retriever.

(* ===================================================================== *)
(** * What a rebuilt collection is to hold *)
(* ===================================================================== *)

Module IndexSpec.
Import chroma index.


(** No character of the text is the hash sign. *)
Definition hash_free (s : string) : bool :=
  PyStr.all_chars (fun c => negb (Ascii.eqb c "#")) s.

(** The calls that neither embed a text nor change the contents of a
    collection. *)
Definition quiet (e : event) : Prop :=
  match e with
  | GetCollection _ | CreateCollection _ | LoadEmbedder => True
  | Encode _ | Delete _ | Add _ _ => False
  end.

End IndexSpec.

(* ===================================================================== *)
(** * Measures of traces and texts *)
(* ===================================================================== *)

Module Measure.

(** The pauses of a trace of the client. *)
Definition pauses_made (w : list ingest_api.event) : nat :=
  length (List.filter (fun e => match e with
                                | ingest_api.Sleep _ => true
                                | _ => false
                                end) w).

(** The times the embedding model was loaded, in a log of the indexer. *)
Definition loads (l : list index.event) : nat :=
  length (List.filter (fun e => match e with
                                | index.LoadEmbedder => true
                                | _ => false
                                end) l).


(** Dates in descending order, each item against all that follow it. *)
Definition newest_first_order {V : Type} (items : list (string * V)) : Prop :=
  StronglySorted (fun a b => String.le (fst b) (fst a)) items.

(** The number of items [l[:n]] keeps of a list of the given length. *)
Definition kept (n : Z) (len : nat) : nat :=
  if (0 <=? n)%Z then Nat.min (Z.to_nat n) len else len - Z.to_nat (- n).


(** The characters of a figure without separators: digits, signs, dot. *)
Definition numeral_char (c : ascii) : bool :=
  PyStr.isdecimal c || Ascii.eqb c "+" || Ascii.eqb c "-" || Ascii.eqb c ".".

(** The characters of a figure as the close pattern captures it. *)
Definition figure_char (c : ascii) : bool :=
  PyStr.isdecimal c || Ascii.eqb c "," || Ascii.eqb c ".".

Definition not_newline (c : ascii) : bool := negb (Ascii.eqb c "010").

(** Somewhere in the text a closing parenthesis is followed by a character
    of a word. *)
Fixpoint paren_then_word (s : string) : bool :=
  match s with
  | EmptyString => false
  | String a s' =>
      (Ascii.eqb a ")" && Regex.wordp (Regex.peek s')) || paren_then_word s'
  end.

End Measure.

(* ===================================================================== *)
(** * Sample inputs *)
(* ===================================================================== *)

Module Samples.
Import PyVal.

(** A throttled body, a healthy one, and two servers: one that throttles
    the first two requests, one that throttles every request. *)
Definition note_body : body :=
  BDict [("Note", VScalar (PStr "Thank you for using Alpha Vantage!"))].

Definition daily_body : body :=
  BDict [("Meta Data", VRecord [("2. Symbol", PStr "AAPL")]);
         ("Time Series (Daily)",
          VSeries [("2024-01-02", [("1. open", PStr "187.15");
                                   ("4. close", PStr "185.64")])])].

Definition throttles_twice (i : nat) : ingest_api.attempt :=
  if Nat.ltb i 2 then ingest_api.AData note_body
  else ingest_api.AData daily_body.


(** A daily series filed under a key in lower case. *)
Definition lower_case_series : av_json :=
[("meta data", VRecord [("2. symbol", PStr "AAPL")]);
 ("time series (daily)",
  VSeries [("2024-01-02", [("1. open", PStr "187.15"); ("2. high", PStr "188.44");
                           ("3. low", PStr "183.89"); ("4. close", PStr "185.64");
                           ("6. volume", PStr "82488700")])])].







(** An overview chunk far from the query and a daily bar close to it. *)
Definition overview_chunk : rag_chain.chunk :=
rag_chain.Chunk "AAPL Company Overview: - Sector: TECHNOLOGY"
  (chroma.Meta (Some "alpha_vantage:overview") (Some 0) (Some "av/AAPL/overview")
               (Some "api/alpha_vantage"))
  (9 # 10).

Definition daily_chunk : rag_chain.chunk :=
rag_chain.Chunk "AAPL daily bar on 2024-01-02: open 187.15, high 188.44, low 183.89, close 185.64, volume 82488700."
  (chroma.Meta (Some "alpha_vantage:time_series_daily_adjusted") (Some 0)
               (Some "av/AAPL/daily#0") (Some "api/alpha_vantage"))
  (1 # 10).

(** A chunk text of 1100 characters. *)
Fixpoint repeat_string (n : nat) (s : string) : string :=
  match n with
  | O => ""
  | S n' => s +:+ repeat_string n' s
  end.

Definition long_chunk : rag_chain.chunk :=
rag_chain.Chunk (repeat_string 100 "close 185.64 ")
  (chroma.Meta (Some "alpha_vantage:time_series_daily_adjusted") (Some 0)
               (Some "av/AAPL/daily#0") (Some "api/alpha_vantage"))
  (1 # 10).

(** A crypto bar whose figures are written with thousands separators. *)
Definition btc_chunk : rag_chain.chunk :=
rag_chain.Chunk "BTC/USD on 2024-01-02: open 42,000.00, high 42,500.00, low 41,900.00, close 42,350.10 volume 1,234."
  (chroma.Meta (Some "alpha_vantage:digital_currency_daily") (Some 0)
               (Some "av/BTC-USD/digital_daily#0") (Some "api/alpha_vantage"))
  (1 # 4).

(** A store without documents and generators with a fixed output. *)
Definition retrieve_nothing (query : string) (k : nat) : list rag_chain.chunk := [].
Definition retrieve_btc (query : string) (k : nat) : list rag_chain.chunk :=
  [btc_chunk].
Definition gen_silent (prompt : string) (max_new_tokens : nat) : string := "".
Definition gen_fluent (prompt : string) (max_new_tokens : nat) : string :=
  "Bitcoin is a digital currency.".

(** A store whose collection "docs" holds one chunk of an earlier build;
    the embedding of a text is taken to be its length. *)
Definition embed_length (text : string) : nat := String.length text.

Definition old_entry : chroma.entry nat :=
chroma.Entry "av/MSFT/overview#chunk0" 27 "MSFT Company Overview: none"
  (chroma.Meta (Some "alpha_vantage:overview") (Some 0) (Some "av/MSFT/overview")
               (Some "api/alpha_vantage")).

Definition used_world : index.world nat :=
index.World {[ "docs" := {[ "av/MSFT/overview#chunk0" := old_entry ]} ]} [].

Definition fresh_world : index.world nat := index.World ∅ [].

Definition identity_chunk (text : string) : list string := [text].

Definition two_docs : list index.doc :=
[index.Doc "av/AAPL/overview" "AAPL Company Overview: - Sector: TECHNOLOGY"
           (Some "alpha_vantage:overview") (Some "api/alpha_vantage");
 index.Doc "av/BTC-USD/digital_daily#0"
           "BTC/USD on 2024-01-02: open 42000.00, high 42500.00, low 41900.00, close 42350.10, volume 1234.5."
           (Some "alpha_vantage:digital_currency_daily") None].

(** Two calls of the indexer in a row, over the store of the
    specification. *)
Definition index_once (docs : list index.doc) (w : index.world nat)
  : PyVal.result nat * index.world nat :=
  index.build_index embed_length chroma.clear_by_filter chroma.batch_insert
                    docs identity_chunk "docs" w.

(** A store whose [delete] raises on the empty filter. *)
Definition delete_raises (c : gmap string (chroma.entry nat))
  : option (gmap string (chroma.entry nat)) := None.






(** An overview record with a nested value, and a series of three days out
    of order. *)
Definition overview_record : dict ingest_api.kv_value :=
[("Symbol", ingest_api.KScalar (PStr "AAPL"));
 ("Officers", ingest_api.KNested);
 ("Sector", ingest_api.KScalar (PStr "TECHNOLOGY"))].

Definition three_days : dict row :=
[("2024-01-03", [("1. open", PStr "184.22"); ("4. close", PStr "184.25")]);
 ("2024-01-05", [("1. open", PStr "181.99"); ("4. close", PStr "181.18")]);
 ("2024-01-04", [])].

Definition three_days_body : av_json :=
[("Meta Data", VRecord [("2. Symbol", PStr "AAPL")]);
 ("Time Series (Daily)", VSeries three_days)].

(** A store whose insert raises. *)
Definition add_raises (c : gmap string (chroma.entry nat))
           (es : list (chroma.entry nat))
  : option (gmap string (chroma.entry nat)) := None.

(** A store that answers every query with the same two hits, and a process
    that has not loaded the embedding model yet. *)
Definition two_hits (c : gmap string (chroma.entry nat)) (qvec : nat) (k : nat)
  : list string * list chroma.metadata * list Q :=
  ([rag_chain.text daily_chunk; rag_chain.text overview_chunk],
   [rag_chain.meta daily_chunk; rag_chain.meta overview_chunk],
   [rag_chain.score daily_chunk; rag_chain.score overview_chunk]).

Definition cold_process : retriever.process nat :=
  retriever.Process false fresh_world.

(** A crypto row quoted in two markets, the euro first. *)
Definition two_market_row : PyVal.row :=
[("4b. close (EUR)", PyVal.PStr "39000.00");
 ("4a. close (USD)", PyVal.PStr "42350.10")].
End Samples.

(* ===================================================================== *)
(** * The fetch loop of the market-data client *)
(* ===================================================================== *)

Section GetFacts.
Import PyVal ingest_api.

Lemma requests_made_app (w1 w2 : list event) :
  requests_made (w1 ++ w2) = requests_made w1 + requests_made w2.
Proof.
  unfold requests_made. rewrite List.filter_app. apply length_app.
Qed.

Lemma requests_made_request (w : list event) :
  requests_made (w ++ [Request]) = S (requests_made w).
Proof.
  rewrite requests_made_app. change (requests_made [Request]) with 1. lia.
Qed.

Lemma requests_made_sleep (w : list event) (s : Z) :
  requests_made (w ++ [Sleep s]) = requests_made w.
Proof.
  rewrite requests_made_app. change (requests_made [Sleep s]) with 0. lia.
Qed.

Variable pause : Z.
Variable http : nat -> attempt.




End GetFacts.



(* ===================================================================== *)
(** * Passages of the time series *)
(* ===================================================================== *)

Section PassageFacts.
Import PyVal ingest_api.

Lemma truthy_not_none (v : pyval) : truthy v = true -> is_none v = false.
Proof. destruct v; simpl; congruence. Qed.







Lemma first_key_holds {V : Type} (p : string -> bool) (d : dict V) (k : string) :
  first_key p d = Some k -> p k = true.
Proof.
  induction d as [|[k' v] d IH]; simpl; [discriminate|].
  destruct (p k') eqn:Hp; [|exact IH].
  intros Heq. injection Heq as <-. exact Hp.
Qed.

(** On a response whose series key holds a time series, the stock builder
    returns the passage of each day it keeps. *)
Lemma _ts_stock_passages_series (symbol : string) (ts_json : av_json)
      (max_days : Z) (key : string) (series : dict row) :
  first_key (PyStr.contains "Time Series") ts_json = Some key ->
  lookup_key key ts_json = Some (VSeries series) ->
  _ts_stock_passages symbol ts_json max_days
  = Ok (map (fun it => stock_passage symbol (fst it) (snd it))
            (newest_first series max_days)).
Proof.
  intros Hkey Hseries. unfold _ts_stock_passages. rewrite Hkey.
  apply first_key_holds in Hkey.
  destruct key as [|c key]; [discriminate Hkey|].
  simpl PyStr.nonempty. cbv iota. simpl negb. cbv iota.
  rewrite Hseries. reflexivity.
Qed.

(** The same for the crypto builder. *)
Lemma _ts_crypto_passages_series (symbol market : string) (json_obj : av_json)
      (max_days : Z) (key : string) (series : dict row) :
  first_key (fun k => PyStr.contains "time series" (PyStr.lower k)) json_obj
  = Some key ->
  lookup_key key json_obj = Some (VSeries series) ->
  _ts_crypto_passages symbol market json_obj max_days
  = Ok (map (fun it => crypto_passage symbol market (fst it) (snd it))
            (newest_first series max_days)).
Proof.
  intros Hkey Hseries. unfold _ts_crypto_passages. rewrite Hkey.
  apply first_key_holds in Hkey.
  destruct key as [|c key]; [discriminate Hkey|].
  simpl PyStr.nonempty. cbv iota. simpl negb. cbv iota.
  rewrite Hseries. reflexivity.
Qed.
End PassageFacts.



(** C3.  The stock passage builder looks for the series key with a test
    that tells upper from lower case: on a response whose key reads
    ["time series (daily)"] it returns no passage, where the crypto builder,
    which lowers the key first, finds the series. *)
Theorem stock_series_key_case_sensitive :
  ingest_api._ts_stock_passages "AAPL" Samples.lower_case_series 365 = PyVal.Ok []
  /\ PyVal.first_key (fun k => PyStr.contains "time series" (PyStr.lower k))
                     Samples.lower_case_series
     = Some "time series (daily)"
  /\ ingest_api._ts_crypto_passages "AAPL" "USD" Samples.lower_case_series 365
     = PyVal.Ok ["AAPL/USD on 2024-01-02: open 187.15, high 188.44, low 183.89, close 185.64, volume None."].
Proof. repeat split; vm_compute; reflexivity. Qed.

Section CryptoFacts.
Import PyVal ingest_api.





End CryptoFacts.




(* ===================================================================== *)
(** * The stable sort *)
(* ===================================================================== *)

Section SortFacts.
Context {A K : Type} (lt : K -> K -> bool) (key : A -> K).

Lemma insert_perm (x : A) (l : list A) :
  Permutation (PySort.insert lt key x l) (x :: l).
Proof.
  induction l as [|y l IH]; simpl; [reflexivity|].
  destruct (lt (key y) (key x)); [|reflexivity].
  rewrite IH. apply perm_swap.
Qed.

Lemma sorted_perm (l : list A) : Permutation (PySort.sorted lt key l) l.
Proof.
  induction l as [|x l IH]; simpl; [reflexivity|].
  rewrite insert_perm. apply perm_skip. exact IH.
Qed.

Variable le : K -> K -> Prop.
Hypothesis le_trans : forall a b c, le a b -> le b c -> le a c.
Hypothesis lt_le : forall a b, lt a b = true -> le a b.
Hypothesis ge_le : forall a b, lt a b = false -> le b a.

Let by_key (a b : A) : Prop := le (key a) (key b).

Lemma insert_sorted (x : A) (l : list A) :
  StronglySorted by_key l -> StronglySorted by_key (PySort.insert lt key x l).
Proof.
  induction 1 as [|y l Hsorted IH Hall]; simpl.
  - constructor; constructor.
  - destruct (lt (key y) (key x)) eqn:Hlt.
    + constructor; [exact IH|].
      apply (Permutation_Forall (Permutation_sym (insert_perm x l))).
      constructor; [apply lt_le; exact Hlt | exact Hall].
    + assert (Hxy : by_key x y) by (apply ge_le; exact Hlt).
      constructor; [constructor; assumption|].
      constructor; [exact Hxy|].
      eapply List.Forall_impl; [|exact Hall].
      intros z Hyz. exact (le_trans _ _ _ Hxy Hyz).
Qed.

Lemma sorted_sorted (l : list A) : StronglySorted by_key (PySort.sorted lt key l).
Proof.
  induction l as [|x l IH]; simpl; [constructor|].
  apply insert_sorted. exact IH.
Qed.
End SortFacts.

Lemma Qltb_le (a b : Q) : PySort.Qltb a b = true -> (a <= b)%Q.
Proof.
  unfold PySort.Qltb. intros H. apply negb_true_iff in H.
  destruct (Qlt_le_dec a b) as [Hlt | Hle].
  - apply Qlt_le_weak. exact Hlt.
  - apply Qle_bool_iff in Hle. congruence.
Qed.

Lemma Qltb_ge (a b : Q) : PySort.Qltb a b = false -> (b <= a)%Q.
Proof.
  unfold PySort.Qltb. intros H. apply negb_false_iff in H.
  apply Qle_bool_iff. exact H.
Qed.

(* ===================================================================== *)
(** * The order of the chunks in the prompt *)
(* ===================================================================== *)

Section PrioritizeFacts.
Import chroma rag_chain.

Lemma opt_eqb_eq {T : Type} (eqb : T -> T -> bool) (a b : option T) :
  (forall x y, eqb x y = true -> x = y) ->
  opt_eqb eqb a b = true -> a = b.
Proof.
  intros Heq. destruct a, b; simpl; intros H; try discriminate; [|reflexivity].
  f_equal. apply Heq. exact H.
Qed.

Lemma opt_eqb_refl {T : Type} (eqb : T -> T -> bool) (a : option T) :
  (forall x, eqb x x = true) -> opt_eqb eqb a a = true.
Proof. intros Hrefl. destruct a; simpl; [apply Hrefl | reflexivity]. Qed.

Lemma metadata_eqb_eq (a b : metadata) : metadata_eqb a b = true -> a = b.
Proof.
  destruct a, b. unfold metadata_eqb. simpl. intros H.
  apply andb_prop in H as [H H4]. apply andb_prop in H as [H H3].
  apply andb_prop in H as [H1 H2].
  apply opt_eqb_eq in H1; [|apply String.eqb_eq].
  apply opt_eqb_eq in H2; [|apply Nat.eqb_eq].
  apply opt_eqb_eq in H3; [|apply String.eqb_eq].
  apply opt_eqb_eq in H4; [|apply String.eqb_eq].
  congruence.
Qed.

Lemma chunk_eqb_refl (ch : chunk) : chunk_eqb ch ch = true.
Proof.
  unfold chunk_eqb, metadata_eqb.
  rewrite String.eqb_refl, Qeq_bool_refl.
  rewrite !(opt_eqb_refl String.eqb) by apply String.eqb_refl.
  rewrite (opt_eqb_refl Nat.eqb) by apply Nat.eqb_refl.
  reflexivity.
Qed.

Lemma chunk_eqb_is_overview (a b : chunk) :
  chunk_eqb a b = true -> is_overview a = is_overview b.
Proof.
  unfold chunk_eqb. intros H.
  apply andb_prop in H as [H _]. apply andb_prop in H as [_ H].
  apply metadata_eqb_eq in H. unfold is_overview. rewrite H. reflexivity.
Qed.

(** A chunk of the list equals one of the overview chunks exactly when it
    is an overview chunk itself. *)
Lemma chunk_in_overviews (chunks : list chunk) (ch : chunk) :
  In ch chunks ->
  chunk_in ch (List.filter is_overview chunks) = is_overview ch.
Proof.
  intros Hin. unfold chunk_in.
  destruct (is_overview ch) eqn:Hov.
  - apply existsb_exists. exists ch. split; [|apply chunk_eqb_refl].
    apply List.filter_In. split; assumption.
  - destruct (existsb _ _) eqn:Hex; [|reflexivity].
    apply existsb_exists in Hex as (ch' & Hin' & Heq).
    apply List.filter_In in Hin' as [_ Hov'].
    apply chunk_eqb_is_overview in Heq. congruence.
Qed.

Lemma others_are_the_rest (chunks : list chunk) :
  List.filter (fun ch => negb (chunk_in ch (List.filter is_overview chunks))) chunks
  = List.filter (fun ch => negb (is_overview ch)) chunks.
Proof.
  apply List.filter_ext_in. intros ch Hin.
  rewrite (chunk_in_overviews chunks ch Hin). reflexivity.
Qed.
End PrioritizeFacts.

(** C9.  [_prioritize_chunks] returns the overview-flavoured chunks of the
    retrieval result (those whose [doc_id] or [type] contains "overview" in
    any letter case) in ascending order of score, followed by all the other
    chunks in ascending order of score; hence every overview chunk comes
    before every other chunk, whatever their scores. *)
Theorem prioritize_overviews_first :
  forall (chunks : list rag_chain.chunk) (query : string),
    exists overviews others : list rag_chain.chunk,
      rag_chain._prioritize_chunks chunks query = overviews ++ others
      /\ Permutation overviews (List.filter rag_chain.is_overview chunks)
      /\ Permutation others
           (List.filter (fun ch => negb (rag_chain.is_overview ch)) chunks)
      /\ Spec.ascending overviews
      /\ Spec.ascending others
      /\ (forall a b : rag_chain.chunk,
             In a chunks -> In b chunks ->
             rag_chain.is_overview a = true ->
             rag_chain.is_overview b = false ->
             Spec.precedes a b (rag_chain._prioritize_chunks chunks query)).
Proof.
  intros chunks query.
  set (overviews := PySort.sorted PySort.Qltb rag_chain.score
                      (List.filter rag_chain.is_overview chunks)).
  set (others := PySort.sorted PySort.Qltb rag_chain.score
                   (List.filter (fun ch => negb (rag_chain.is_overview ch)) chunks)).
  assert (Hrun : rag_chain._prioritize_chunks chunks query = overviews ++ others).
  { unfold rag_chain._prioritize_chunks. cbv zeta.
    rewrite others_are_the_rest. reflexivity. }
  assert (Hov : Permutation overviews (List.filter rag_chain.is_overview chunks))
    by apply sorted_perm.
  assert (Hot : Permutation others
                  (List.filter (fun ch => negb (rag_chain.is_overview ch)) chunks))
    by apply sorted_perm.
  exists overviews, others.
  split; [exact Hrun|]. split; [exact Hov|]. split; [exact Hot|].
  split; [|split].
  - apply (sorted_sorted PySort.Qltb rag_chain.score Qle);
      [exact Qle_trans | exact Qltb_le | exact Qltb_ge].
  - apply (sorted_sorted PySort.Qltb rag_chain.score Qle);
      [exact Qle_trans | exact Qltb_le | exact Qltb_ge].
  - intros a b Ha Hb Hova Hovb.
    assert (Ha' : In a overviews).
    { apply (Permutation_in a (Permutation_sym Hov)).
      apply List.filter_In. split; assumption. }
    assert (Hb' : In b others).
    { apply (Permutation_in b (Permutation_sym Hot)).
      apply List.filter_In. split; [exact Hb | rewrite Hovb; reflexivity]. }
    apply in_split in Ha' as (l1 & l2 & Hl1).
    apply in_split in Hb' as (l3 & l4 & Hl3).
    exists l1, (l2 ++ l3), l4.
    rewrite Hrun, Hl1, Hl3. rewrite <- !app_assoc. reflexivity.
Qed.

Lemma prioritize_overviews_first_witness :
  Spec.precedes Samples.overview_chunk Samples.daily_chunk
    (rag_chain._prioritize_chunks [Samples.daily_chunk; Samples.overview_chunk]
                                  "Summarize company overview")
  /\ rag_chain._prioritize_chunks [Samples.daily_chunk; Samples.overview_chunk]
                                  "Summarize company overview"
     = [Samples.overview_chunk; Samples.daily_chunk].
Proof.
  split.
  - destruct (prioritize_overviews_first
                [Samples.daily_chunk; Samples.overview_chunk]
                "Summarize company overview")
      as (overviews & others & _ & _ & _ & _ & _ & Hprecedes).
    apply Hprecedes;
      [right; left; reflexivity | left; reflexivity | reflexivity | reflexivity].
  - reflexivity.
Defined.

(* ===================================================================== *)
(** * The prompt and the answer *)
(* ===================================================================== *)

Section AnswerFacts.
Import chroma rag_chain.

Lemma _prioritize_chunks_nil (query : string) : _prioritize_chunks [] query = [].
Proof. reflexivity. Qed.

(** Without chunks every query gets the general template, with an empty
    context. *)
Lemma _build_prompt_nil (query : string) :
  _build_prompt query []
  = "Context: " +:+ PyStr.NL +:+ PyStr.NL +:+ "Question: " +:+ query
    +:+ PyStr.NL +:+ "Answer:".
Proof.
  unfold _build_prompt.
  destruct (_contains_numeric_request query), (_is_company_query query);
    reflexivity.
Qed.

(** A text within the display length passes [_shorten_text] unchanged. *)
Lemma _shorten_text_short (t : string) (max_chars : nat) :
  PyStr.len t <= max_chars -> _shorten_text t max_chars = t.
Proof.
  intros Hlen. unfold _shorten_text.
  destruct t as [|c t]; [reflexivity|]. simpl PyStr.nonempty. simpl negb.
  cbv iota. apply Nat.leb_le in Hlen. rewrite Hlen. reflexivity.
Qed.

Lemma shortened_short (ch : chunk) :
  PyStr.len (text ch) <= CHUNK_MAX_CHARS -> Spec.shortened ch = ch.
Proof.
  intros Hlen. unfold Spec.shortened.
  rewrite (_shorten_text_short _ _ Hlen). destruct ch. reflexivity.
Qed.

Lemma map_shortened_short (chunks : list chunk) :
  Forall (fun ch => PyStr.len (text ch) <= CHUNK_MAX_CHARS) chunks ->
  map Spec.shortened chunks = chunks.
Proof.
  induction 1 as [|ch chunks Hch _ IH]; simpl; [reflexivity|].
  rewrite (shortened_short ch Hch), IH. reflexivity.
Qed.
End AnswerFacts.

(** C7, as the code has it.  When retrieval returns no chunk, the
    generator is still called, on the general template with an empty
    context; [answer] returns "I don't know." only if the trimmed output is
    empty, three characters or fewer, or all digits, and returns the
    trimmed output otherwise.  The citation list is empty and nothing is
    raised in either case. *)
Theorem answer_without_context :
  forall (retrieve : string -> nat -> list rag_chain.chunk)
         (gen : string -> nat -> string)
         (query : string) (k max_new_tokens : nat),
    retrieve query k = [] ->
    let prompt :=
      "Context: " +:+ PyStr.NL +:+ PyStr.NL +:+ "Question: " +:+ query
      +:+ PyStr.NL +:+ "Answer:" in
    let out := PyStr.strip (gen prompt max_new_tokens) in
    rag_chain.answer retrieve gen query k max_new_tokens
    = (if rag_chain.poor_output out then "I don't know." else out, []).
Proof.
  intros retrieve gen query k max_new_tokens Hnone prompt out.
  unfold rag_chain.answer. rewrite Hnone, _prioritize_chunks_nil.
  change (take 4 (@nil rag_chain.chunk)) with (@nil rag_chain.chunk).
  rewrite _build_prompt_nil. fold prompt. fold out. cbv zeta.
  destruct (rag_chain.poor_output out); [|reflexivity].
  destruct (rag_chain._contains_numeric_request query); reflexivity.
Qed.

Lemma answer_without_context_witness :
  rag_chain.answer Samples.retrieve_nothing Samples.gen_silent
                   "What was the BTC close yesterday?" 6 100
  = ("I don't know.", []).
Proof.
  exact (answer_without_context Samples.retrieve_nothing Samples.gen_silent
           "What was the BTC close yesterday?" 6 100 eq_refl).
Defined.

(** C7 as the specification words it fails: with no chunk retrieved and a
    generator that writes a sentence, [answer] returns that sentence. *)
Lemma answer_without_context_keeps_output :
  Samples.retrieve_nothing "What is Bitcoin?" 6 = []
  /\ rag_chain.answer Samples.retrieve_nothing Samples.gen_fluent
                      "What is Bitcoin?" 6 100
     = ("Bitcoin is a digital currency.", [])
  /\ fst (rag_chain.answer Samples.retrieve_nothing Samples.gen_fluent
                           "What is Bitcoin?" 6 100)
     <> "I don't know.".
Proof. repeat split. vm_compute. discriminate. Qed.

(** C2, as the code has it.  [_build_prompt] embeds the text of a chunk as
    retrieved, under the slice of its template alone: the whole text of the
    best chunk for a numeric query, its first 400 characters for a company
    query, the first 200 characters of each of the first two chunks
    otherwise.  No cut to 800 characters comes first.  When no chunk text
    is longer than 800 characters the cut would change nothing, and the
    prompt is the one the specification describes; with a longer text it
    need not be. *)
Theorem build_prompt_embeds_raw_text :
  forall (query : string) (chunks : list rag_chain.chunk),
    (forall best rest,
        chunks = best :: rest ->
        rag_chain._contains_numeric_request query = true ->
        rag_chain._build_prompt query chunks
        = "Extract the price from this data: " +:+ rag_chain.text best
          +:+ PyStr.NL +:+ "Question: " +:+ query +:+ PyStr.NL +:+ "Answer:")
    /\ (forall best rest,
           chunks = best :: rest ->
           rag_chain._contains_numeric_request query = false ->
           rag_chain._is_company_query query = true ->
           rag_chain._build_prompt query chunks
           = "Summarize this company information: "
             +:+ PyStr.take 400 (rag_chain.text best) +:+ PyStr.NL
             +:+ "Question: " +:+ query +:+ PyStr.NL +:+ "Answer:")
    /\ (rag_chain._contains_numeric_request query = false ->
        rag_chain._is_company_query query = false ->
        rag_chain._build_prompt query chunks
        = "Context: "
          +:+ foldl (fun acc ch =>
                       acc +:+ PyStr.take 200 (rag_chain.text ch) +:+ PyStr.NL)
                    "" (take 2 chunks)
          +:+ PyStr.NL +:+ PyStr.NL +:+ "Question: " +:+ query
          +:+ PyStr.NL +:+ "Answer:")
    /\ (Forall (fun ch => PyStr.len (rag_chain.text ch)
                          <= rag_chain.CHUNK_MAX_CHARS) chunks ->
        rag_chain._build_prompt query chunks
        = Spec.capped_build_prompt query chunks).
Proof.
  intros query chunks. repeat split.
  - intros best rest -> Hnum. unfold rag_chain._build_prompt.
    rewrite Hnum. reflexivity.
  - intros best rest -> Hnum Hcomp. unfold rag_chain._build_prompt.
    rewrite Hnum, Hcomp. reflexivity.
  - intros Hnum Hcomp. unfold rag_chain._build_prompt.
    rewrite Hnum, Hcomp. reflexivity.
  - intros Hshort. unfold Spec.capped_build_prompt.
    rewrite (map_shortened_short chunks Hshort). reflexivity.
Qed.

Lemma build_prompt_embeds_raw_text_witness :
  rag_chain._build_prompt "What was the close price?" [Samples.long_chunk]
  = "Extract the price from this data: "
    +:+ rag_chain.text Samples.long_chunk
    +:+ PyStr.NL +:+ "Question: What was the close price?" +:+ PyStr.NL
    +:+ "Answer:"
  /\ rag_chain._build_prompt "Summarize company overview"
                             [Samples.overview_chunk; Samples.daily_chunk]
     = Spec.capped_build_prompt "Summarize company overview"
                                [Samples.overview_chunk; Samples.daily_chunk].
Proof.
  split.
  - destruct (build_prompt_embeds_raw_text "What was the close price?"
                [Samples.long_chunk]) as (Hnumeric & _).
    exact (Hnumeric Samples.long_chunk [] eq_refl eq_refl).
  - destruct (build_prompt_embeds_raw_text "Summarize company overview"
                [Samples.overview_chunk; Samples.daily_chunk])
      as (_ & _ & _ & Hsame).
    apply Hsame.
    repeat constructor; vm_compute; intros Hgt; discriminate Hgt.
Defined.

(** C2 as the specification words it fails: for a numeric query the prompt
    holds all 1300 characters of the best chunk, and it is not the prompt
    built from the chunk cut to 800 characters. *)
Lemma build_prompt_not_capped :
  PyStr.len (rag_chain.text Samples.long_chunk) = 1300
  /\ PyStr.contains (rag_chain.text Samples.long_chunk)
       (rag_chain._build_prompt "What was the close price?" [Samples.long_chunk])
     = true
  /\ PyStr.len (rag_chain.text (Spec.shortened Samples.long_chunk)) = 802
  /\ rag_chain._build_prompt "What was the close price?" [Samples.long_chunk]
     <> Spec.capped_build_prompt "What was the close price?" [Samples.long_chunk].
Proof.
  split; [vm_compute; reflexivity|].
  split; [vm_compute; reflexivity|].
  split; [vm_compute; reflexivity|].
  intros Hsame. apply (f_equal PyStr.len) in Hsame.
  vm_compute in Hsame. discriminate Hsame.
Qed.

(** C1.  With an empty generation, a numeric query and a best chunk that
    reads "close 42,350.10", [answer] returns the figure as the pattern
    captured it, commas included: the answer does not contain "42350.10".
    The other fallback, [_extract_numeric_from_text], does strip the commas
    of the figure it returns. *)
Theorem close_fallback_keeps_commas :
  rag_chain.answer Samples.retrieve_btc Samples.gen_silent
                   "What was the BTC close price?" 6 100
  = ("BTC close price: 42,350.10", [Samples.btc_chunk])
  /\ PyStr.contains "42350.10" "BTC close price: 42,350.10" = false
  /\ rag_chain._extract_numeric_from_text "42,350.10" = "42350.10".
Proof. repeat split; vm_compute; reflexivity. Qed.

(* ===================================================================== *)
(** * The indexer *)
(* ===================================================================== *)

Section IndexFacts.
Import PyVal chroma index.
Context {embedding : Type}.
Variable embed : string -> embedding.

Lemma texts_of_nil (rows : list (string * string * metadata)) :
  texts_of rows = [] -> rows = [].
Proof. destruct rows; [reflexivity | discriminate]. Qed.

Lemma contents_get_collection (name : string) (w : world embedding) :
  stored (get_collection name w) !! name = Some (contents name w).
Proof.
  unfold get_collection, contents.
  destruct (stored w !! name) as [c|] eqn:Hc; simpl.
  - exact Hc.
  - apply lookup_insert_eq.
Qed.

Lemma other_get_collection (name other : string) (w : world embedding) :
  other <> name -> stored (get_collection name w) !! other = stored w !! other.
Proof.
  intros Hne. unfold get_collection.
  destruct (stored w !! name); simpl; [reflexivity|].
  apply lookup_insert_ne. congruence.
Qed.

Lemma log_get_collection (name : string) (w : world embedding) :
  exists calls,
    log (get_collection name w) = log w ++ calls /\ Forall IndexSpec.quiet calls.
Proof.
  unfold get_collection. destruct (stored w !! name); simpl.
  - exists [GetCollection name]. split; [reflexivity|]. repeat constructor.
  - exists [GetCollection name; CreateCollection name].
    split; [reflexivity|]. repeat constructor.
Qed.

(** With no chunk text the indexer stops after opening the collection and
    loading the embedder. *)
Lemma build_index_no_text (col_delete : collection embedding -> option (collection embedding))
      (col_add : collection embedding -> list (entry embedding)
                 -> option (collection embedding))
      (docs : list doc) (chunker : string -> list string) (name : string)
      (w : world embedding) :
  texts_of (chunk_rows docs chunker) = [] ->
  build_index embed col_delete col_add docs chunker name w
  = (Ok 0, World (stored (get_collection name w))
                 (log (get_collection name w) ++ [LoadEmbedder])).
Proof. intros Hnone. unfold build_index. cbv zeta. rewrite Hnone. reflexivity. Qed.
End IndexFacts.

(** C6, as the code has it.  When chunking yields no chunk text (as it
    does for an empty passage list), [build_index] returns 0 without
    computing an embedding and without clearing or inserting: it only opens
    the collection and loads the embedder.  Opening creates the collection,
    empty, when the store had none; a collection that existed keeps its
    contents.  Every other collection is untouched. *)
Theorem build_index_without_chunks :
  forall (embedding : Type) (embed : string -> embedding)
         (col_delete : gmap string (chroma.entry embedding)
                       -> option (gmap string (chroma.entry embedding)))
         (col_add : gmap string (chroma.entry embedding)
                    -> list (chroma.entry embedding)
                    -> option (gmap string (chroma.entry embedding)))
         (docs : list index.doc) (chunker : string -> list string)
         (name : string) (w : index.world embedding),
    index.texts_of (index.chunk_rows docs chunker) = [] ->
    exists w' : index.world embedding,
      index.build_index embed col_delete col_add docs chunker name w
      = (PyVal.Ok 0, w')
      /\ index.stored w' !! name = Some (default ∅ (index.stored w !! name))
      /\ (forall other, other <> name ->
                        index.stored w' !! other = index.stored w !! other)
      /\ (exists calls,
             index.log w' = index.log w ++ calls
             /\ Forall IndexSpec.quiet calls)
      /\ index.texts_of (index.chunk_rows [] chunker) = [].
Proof.
  intros embedding embed col_delete col_add docs chunker name w Hnone.
  eexists. split; [apply build_index_no_text; exact Hnone|].
  simpl. split; [apply contents_get_collection|].
  split; [intros other Hne; apply other_get_collection; exact Hne|].
  split; [|reflexivity].
  destruct (log_get_collection name w) as (calls & Hlog & Hquiet).
  exists (calls ++ [index.LoadEmbedder]). split.
  - rewrite Hlog, <- app_assoc. reflexivity.
  - apply Forall_app. split; [exact Hquiet | repeat constructor].
Qed.

Lemma build_index_without_chunks_witness :
  exists w' : index.world nat,
    index.build_index Samples.embed_length chroma.clear_by_filter
                      chroma.batch_insert [] Samples.identity_chunk "docs"
                      Samples.fresh_world
    = (PyVal.Ok 0, w')
    /\ index.stored w' !! "docs"
       = Some (default ∅ (index.stored Samples.fresh_world !! "docs")).
Proof.
  destruct (build_index_without_chunks nat Samples.embed_length
              chroma.clear_by_filter chroma.batch_insert []
              Samples.identity_chunk "docs" Samples.fresh_world eq_refl)
    as (w' & Hrun & Hkept & _).
  exists w'. split; [exact Hrun | exact Hkept].
Defined.

(** C6 as the specification words it fails on a store that already holds
    the collection: the call returns 0 and the chunk of the earlier build
    is still there, so the collection is neither absent nor empty.  On a
    store without the collection the call creates it. *)
Lemma build_index_without_chunks_keeps_contents :
  fst (index.build_index Samples.embed_length chroma.clear_by_filter
         chroma.batch_insert [] Samples.identity_chunk "docs" Samples.used_world)
  = PyVal.Ok 0
  /\ index.contents "docs"
       (snd (index.build_index Samples.embed_length chroma.clear_by_filter
               chroma.batch_insert [] Samples.identity_chunk "docs"
               Samples.used_world))
     !! "av/MSFT/overview#chunk0"
     = Some Samples.old_entry
  /\ index.stored Samples.fresh_world !! "docs" = None
  /\ index.stored
       (snd (index.build_index Samples.embed_length chroma.clear_by_filter
               chroma.batch_insert [] Samples.identity_chunk "docs"
               Samples.fresh_world))
     !! "docs"
     = Some ∅.
Proof. repeat split; vm_compute; reflexivity. Qed.

Section BatchFacts.
Import PyVal chroma index.
Context {embedding : Type}.
Implicit Types (c : gmap string (entry embedding)).
Implicit Types (es : list (entry embedding)).







Variable embed : string -> embedding.



(** With at least one chunk and the store of the specification, the
    indexer clears the collection and leaves in it the batch inserted into
    the empty collection. *)
Lemma build_index_rebuilds (docs : list doc) (chunker : string -> list string)
      (name : string) (w : world embedding) :
  chunk_rows docs chunker <> [] ->
  exists w1 : world embedding,
    build_index embed clear_by_filter batch_insert docs chunker name w
    = (Ok (length (chunk_rows docs chunker)), w1)
    /\ stored w1 !! name
       = Some (foldl (fun m e => <[e_id e := e]> m) ∅
                     (entries_of embed (chunk_rows docs chunker))).
Proof.
  intros Hrows. unfold build_index. cbv zeta.
  destruct (chunk_rows docs chunker) as [|r rows] eqn:Hr; [congruence|].
  change (texts_of (r :: rows)) with (snd (fst r) :: texts_of rows).
  cbv iota beta. unfold clear_by_filter, batch_insert.
  eexists. split.
  - f_equal. unfold ids_of. rewrite length_map. reflexivity.
  - simpl stored. rewrite lookup_insert_eq.
    unfold contents at 1. simpl stored. rewrite lookup_insert_eq. reflexivity.
Qed.

End BatchFacts.

(* ===================================================================== *)
(** * Chunk ids *)
(* ===================================================================== *)

Section ChunkIdFacts.
Import chroma index IndexSpec.

Lemma hash_free_after_hash (a s : string) :
  hash_free (a +:+ String "#" s) = false.
Proof.
  induction a as [|c a IH]; simpl; [reflexivity|].
  unfold hash_free in *. simpl. rewrite IH. apply andb_false_r.
Qed.

(** A text is split in one way only at its last hash sign. *)
Lemma split_at_last_hash (a : string) :
  forall b s t : string,
    hash_free s = true -> hash_free t = true ->
    a +:+ String "#" s = b +:+ String "#" t -> a = b /\ s = t.
Proof.
  induction a as [|c a IH]; intros [|c' b] s t Hs Ht Heq; simpl in Heq.
  - injection Heq as ->. split; reflexivity.
  - injection Heq as <- ->. rewrite hash_free_after_hash in Hs. discriminate.
  - injection Heq as -> <-. rewrite hash_free_after_hash in Ht. discriminate.
  - injection Heq as -> Heq. destruct (IH b s t Hs Ht Heq) as [-> ->].
    split; reflexivity.
Qed.

Lemma pretty_N_char_not_hash (x : N) :
  negb (Ascii.eqb (pretty_N_char x) "#") = true.
Proof. unfold pretty_N_char. repeat case_match; reflexivity. Qed.

Lemma pretty_N_go_hash_free (x : N) :
  forall s, hash_free s = true -> hash_free (pretty_N_go x s) = true.
Proof.
  induction (N.lt_wf_0 x) as [x _ IH]. intros s Hs.
  destruct (decide (0 < x)%N) as [Hpos | Hzero].
  - rewrite pretty_N_go_step by exact Hpos. apply IH.
    + apply N.div_lt; [exact Hpos | reflexivity].
    + unfold hash_free in *. simpl. rewrite pretty_N_char_not_hash. exact Hs.
  - replace x with 0%N by lia. rewrite pretty_N_go_0. exact Hs.
Qed.

Lemma pretty_nat_hash_free (i : nat) : hash_free (pretty i) = true.
Proof.
  unfold pretty, pretty_nat, pretty, pretty_N.
  destruct (decide (N.of_nat i = 0%N)); [reflexivity|].
  apply pretty_N_go_hash_free. reflexivity.
Qed.

(** The id of a chunk determines the id of its passage and its index. *)
Lemma chunk_id_inj (d d' : doc) (i j : nat) :
  chunk_id d i = chunk_id d' j -> id d = id d' /\ i = j.
Proof.
  unfold chunk_id.
  change ("#chunk" +:+ pretty i) with (String "#" ("chunk" +:+ pretty i)).
  change ("#chunk" +:+ pretty j) with (String "#" ("chunk" +:+ pretty j)).
  intros Heq. apply split_at_last_hash in Heq as [Hid Htail].
  - split; [exact Hid|]. simpl in Htail. injection Htail as Htail.
    apply (inj pretty). exact Htail.
  - exact (pretty_nat_hash_free i).
  - exact (pretty_nat_hash_free j).
Qed.

Lemma enumerate_ids_from (d : doc) (l : list string) :
  forall (k : nat) (x : string),
    In x (map (fun ic : nat * string => chunk_id d (fst ic)) (enumerate_from k l)) ->
    exists j, k <= j /\ x = chunk_id d j.
Proof.
  induction l as [|ch l IH]; simpl; intros k x Hin; [contradiction|].
  destruct Hin as [<- | Hin].
  - exists k. split; [lia | reflexivity].
  - apply IH in Hin as (j & Hle & ->). exists j. split; [lia | reflexivity].
Qed.

Lemma enumerate_ids_nodup (d : doc) (l : list string) :
  forall k : nat,
    List.NoDup (map (fun ic : nat * string => chunk_id d (fst ic))
                    (enumerate_from k l)).
Proof.
  induction l as [|ch l IH]; simpl; intros k; constructor.
  - intros Hin. apply enumerate_ids_from in Hin as (j & Hle & Heq).
    apply chunk_id_inj in Heq as [_ Heq]. lia.
  - apply IH.
Qed.

Lemma ids_of_cons (d : doc) (docs : list doc) (chunker : string -> list string) :
  ids_of (chunk_rows (d :: docs) chunker)
  = map (fun ic : nat * string => chunk_id d (fst ic))
        (enumerate (chunker (text d)))
    ++ ids_of (chunk_rows docs chunker).
Proof.
  unfold ids_of, chunk_rows. simpl. rewrite map_app, map_map. reflexivity.
Qed.

Lemma ids_of_from_docs (docs : list doc) (chunker : string -> list string)
      (x : string) :
  In x (ids_of (chunk_rows docs chunker)) ->
  exists d j, In d docs /\ x = chunk_id d j.
Proof.
  induction docs as [|d docs IH]; [intros []|].
  rewrite ids_of_cons. intros Hin. apply in_app_or in Hin as [Hin | Hin].
  - apply enumerate_ids_from in Hin as (j & _ & ->).
    exists d, j. split; [left; reflexivity | reflexivity].
  - apply IH in Hin as (d' & j & Hd' & ->).
    exists d', j. split; [right; exact Hd' | reflexivity].
Qed.

(** Passages with distinct ids give chunks with distinct ids, whatever
    the chunking function. *)
Lemma chunk_ids_nodup (docs : list doc) (chunker : string -> list string) :
  List.NoDup (map id docs) -> List.NoDup (ids_of (chunk_rows docs chunker)).
Proof.
  induction docs as [|d docs IH]; intros Hnodup; [constructor|].
  simpl in Hnodup. apply NoDup_cons_iff in Hnodup as [Hfresh Hnodup].
  rewrite ids_of_cons. apply List.NoDup_app.
  - apply enumerate_ids_nodup.
  - apply IH. exact Hnodup.
  - intros x Hhere Hthere.
    apply enumerate_ids_from in Hhere as (j & _ & ->).
    apply ids_of_from_docs in Hthere as (d' & j' & Hd' & Heq).
    apply chunk_id_inj in Heq as [Hid _].
    apply Hfresh. rewrite Hid. apply in_map. exact Hd'.
Qed.
End ChunkIdFacts.

(** The exception of a failed clear is swallowed: the insert goes ahead on
    top of what the collection held. *)
Example build_index_delete_raises :
  fst (index.build_index Samples.embed_length Samples.delete_raises
         chroma.batch_insert Samples.two_docs Samples.identity_chunk "docs"
         Samples.used_world)
  = PyVal.Ok 2
  /\ size (index.contents "docs"
             (snd (index.build_index Samples.embed_length Samples.delete_raises
                     chroma.batch_insert Samples.two_docs Samples.identity_chunk
                     "docs" Samples.used_world)))
     = 3.
Proof. split; vm_compute; reflexivity. Qed.




(* ===================================================================== *)
(** * More on the fetch loop *)
(* ===================================================================== *)

Section GetMore.
Import PyVal ingest_api.
Variable pause : Z.
Variable http : nat -> attempt.


Lemma pauses_made_app (w1 w2 : list event) :
  Measure.pauses_made (w1 ++ w2)
  = Measure.pauses_made w1 + Measure.pauses_made w2.
Proof.
  unfold Measure.pauses_made. rewrite List.filter_app. apply length_app.
Qed.


(** What the loop adds to the trace: at least one request when it has a
    turn, at most one for each turn, never more pauses than requests, and
    pauses of the configured length only. *)
Lemma _get_loop_trace (m : nat) :
  forall w : list event,
    exists evs,
      snd (_get_loop pause http m w) = w ++ evs
      /\ requests_made evs <= m
      /\ (0 < m -> 0 < requests_made evs)
      /\ Measure.pauses_made evs <= requests_made evs
      /\ Forall (fun e => e = Request \/ e = Sleep pause) evs.
Proof.
  induction m as [|m IH]; intros w.
  - exists []. simpl. rewrite app_nil_r.
    split; [reflexivity|]. split; [cbv; lia|]. split; [lia|].
    split; [cbv; lia | constructor].
  - simpl. destruct (http (requests_made w)) as [e | data].
    + exists [Request]. split; [reflexivity|].
      change (requests_made [Request]) with 1.
      change (Measure.pauses_made [Request]) with 0.
      split; [lia|]. split; [lia|]. split; [lia|]. repeat constructor.
    + destruct (is_throttled data).
      * destruct (IH ((w ++ [Request]) ++ [Sleep pause]))
          as (evs & Hsnd & Hle & _ & Hpauses & Hall).
        exists ([Request; Sleep pause] ++ evs). rewrite Hsnd.
        split; [rewrite <- !app_assoc; reflexivity|].
        rewrite requests_made_app, pauses_made_app.
        change (requests_made [Request; Sleep pause]) with 1.
        change (Measure.pauses_made [Request; Sleep pause]) with 1.
        split; [lia|]. split; [lia|]. split; [lia|].
        apply Forall_app. split; [|exact Hall].
        constructor; [left; reflexivity|]. constructor; [right; reflexivity|].
        constructor.
      * assert (Hone : exists evs,
                   w ++ [Request] = w ++ evs
                   /\ requests_made evs <= S m
                   /\ (0 < S m -> 0 < requests_made evs)
                   /\ Measure.pauses_made evs <= requests_made evs
                   /\ Forall (fun e => e = Request \/ e = Sleep pause) evs).
        { exists [Request]. split; [reflexivity|].
          change (requests_made [Request]) with 1.
          change (Measure.pauses_made [Request]) with 0.
          split; [lia|]. split; [lia|]. split; [lia|]. repeat constructor. }
        destruct (has_error_message data) as [[|]|e]; exact Hone.
Qed.

(** Whatever the loop returns is neither a throttled body nor one with an
    error message. *)
Lemma _get_loop_returns (m : nat) :
  forall (w w' : list event) (data : body),
    _get_loop pause http m w = (Ok data, w') ->
    is_throttled data = false /\ has_error_message data = Ok false.
Proof.
  induction m as [|m IH]; intros w w' data; simpl; [discriminate|].
  destruct (http (requests_made w)) as [e | d]; [discriminate|].
  destruct (is_throttled d) eqn:Hthr; [apply IH|].
  destruct (has_error_message d) as [[|]|e] eqn:Herr; try discriminate.
  intros Heq. injection Heq as <- _. split; assumption.
Qed.
End GetMore.

(** X1.  Whatever the server answers, [_get] sends at least one request
    and at most five, only adds to the trace, never pauses more often than
    it requests, and pauses for the configured time only. *)
Theorem get_bounded :
  forall (pause : Z) (http : nat -> ingest_api.attempt)
         (w : list ingest_api.event),
    exists evs,
      snd (ingest_api._get pause http w) = w ++ evs
      /\ 1 <= ingest_api.requests_made evs <= 5
      /\ Measure.pauses_made evs <= ingest_api.requests_made evs
      /\ Forall (fun e => e = ingest_api.Request \/ e = ingest_api.Sleep pause) evs.
Proof.
  intros pause http w.
  destruct (_get_loop_trace pause http 5 w) as (evs & Hsnd & Hle & Hpos & Hp & Hall).
  exists evs. split; [exact Hsnd|]. split; [|split; assumption].
  split; [apply Hpos; lia | exact Hle].
Qed.

(** X2.  A body [_get] returns is never one the client takes for
    throttled, that is a dictionary with a key that reads "note" in some
    letter case, and never holds an error message. *)
Theorem get_returns_clean_body :
  forall (pause : Z) (http : nat -> ingest_api.attempt)
         (w w' : list ingest_api.event) (data : PyVal.body),
    ingest_api._get pause http w = (PyVal.Ok data, w') ->
    ingest_api.is_throttled data = false
    /\ ingest_api.has_error_message data = PyVal.Ok false.
Proof. intros pause http w w' data. apply _get_loop_returns. Qed.

Lemma get_returns_clean_body_witness :
  ingest_api.is_throttled Samples.daily_body = false
  /\ ingest_api.has_error_message Samples.daily_body = PyVal.Ok false.
Proof.
  apply (get_returns_clean_body 13 Samples.throttles_twice []
           [ingest_api.Request; ingest_api.Sleep 13; ingest_api.Request;
            ingest_api.Sleep 13; ingest_api.Request]).
  reflexivity.
Defined.





(* ===================================================================== *)
(** * Records as text, and the days of a series *)
(* ===================================================================== *)

Section TextFacts.
Import PyVal ingest_api.




Lemma append_cons (c : ascii) (a b : string) :
  String c a +:+ b = String c (a +:+ b).
Proof. reflexivity. Qed.


Lemma append_assoc (a b c : string) : (a +:+ b) +:+ c = a +:+ (b +:+ c).
Proof.
  induction a as [|x a IH]; [reflexivity|].
  rewrite !append_cons, IH. reflexivity.
Qed.


End TextFacts.



Section SeriesFacts.
Import PyVal ingest_api.

Lemma ltb_le (a b : string) : String.ltb a b = true -> String.le a b.
Proof.
  unfold String.le, String.ltb, String.leb.
  destruct (String.compare a b); simpl; [discriminate | exact (fun _ => I) | discriminate].
Qed.

Lemma nltb_le (a b : string) : String.ltb b a = false -> String.le a b.
Proof.
  unfold String.le, String.ltb, String.leb. rewrite (String.compare_antisym b a).
  destruct (String.compare a b); simpl; intros H;
    [exact I | exact I | discriminate H].
Qed.

Lemma le_trans_flipped (a b c : string) :
  String.le b a -> String.le c b -> String.le c a.
Proof. intros Hba Hcb. exact (transitivity Hcb Hba). Qed.

(** The items of a series after [sorted(..., reverse=True)]: the latest
    date first. *)
Lemma sorted_reverse_newest_first {V : Type} (s : dict V) :
  Measure.newest_first_order (PySort.sorted_reverse String.ltb fst s).
Proof.
  unfold Measure.newest_first_order, PySort.sorted_reverse.
  apply (sorted_sorted (fun a b => String.ltb b a) fst
                       (fun a b => String.le b a)).
  - intros a b c. apply le_trans_flipped.
  - intros a b. apply ltb_le.
  - intros a b. apply nltb_le.
Qed.

Lemma slice_to_split {A : Type} (n : Z) (l : list A) :
  exists m, slice_to n l = take m l /\ length (take m l) = Measure.kept n (length l).
Proof.
  unfold slice_to, Measure.kept. destruct (0 <=? n)%Z.
  - exists (Z.to_nat n). split; [reflexivity|]. apply length_take.
  - exists (length l - Z.to_nat (- n)). split; [reflexivity|].
    rewrite length_take. lia.
Qed.

(** The days kept by [newest_first] and the days it leaves out. *)
Lemma newest_first_spec {V : Type} (s : dict V) (max_days : Z) :
  exists rest,
    Permutation (newest_first s max_days ++ rest) s
    /\ length (newest_first s max_days) = Measure.kept max_days (length s)
    /\ Measure.newest_first_order (newest_first s max_days)
    /\ (forall a b, In a (newest_first s max_days) -> In b rest ->
                    String.le (fst b) (fst a)).
Proof.
  unfold newest_first.
  set (sorted := PySort.sorted_reverse String.ltb fst s).
  assert (Hsorted : Measure.newest_first_order sorted)
    by apply sorted_reverse_newest_first.
  assert (Hperm : Permutation sorted s) by apply sorted_perm.
  destruct (slice_to_split max_days sorted) as (m & -> & Hlen).
  exists (drop m sorted).
  unfold Measure.newest_first_order in *.
  rewrite <- (take_drop m sorted) in Hsorted.
  split; [rewrite take_drop; exact Hperm|].
  split; [rewrite Hlen, (Permutation_length Hperm); reflexivity|].
  split; [exact (StronglySorted_app_1_l _ _ _ Hsorted)|].
  intros a b Ha Hb.
  apply (StronglySorted_app_1_elem_of _ _ _ a b Hsorted);
    apply list_elem_of_In; assumption.
Qed.

End SeriesFacts.

(** X6.  When the series key of a response holds a time series, both
    passage builders return one passage for each of the days they keep, with
    no exception whatever the rows hold: the days kept are [max_days] of the
    series at most (a negative [max_days] drops that many of the oldest
    days), they come latest first, and no day left out is later than a day
    kept. *)
Theorem passages_newest_first :
  forall (symbol market : string) (json : PyVal.av_json) (max_days : Z)
         (key : string) (s : PyVal.dict PyVal.row),
    PyVal.lookup_key key json = Some (PyVal.VSeries s) ->
    exists items rest : list (string * PyVal.row),
      Permutation (items ++ rest) s
      /\ length items = Measure.kept max_days (length s)
      /\ Measure.newest_first_order items
      /\ (forall a b, In a items -> In b rest -> String.le (fst b) (fst a))
      /\ (PyVal.first_key (PyStr.contains "Time Series") json = Some key ->
          ingest_api._ts_stock_passages symbol json max_days
          = PyVal.Ok (map (fun it => ingest_api.stock_passage symbol (fst it) (snd it))
                          items))
      /\ (PyVal.first_key (fun k => PyStr.contains "time series" (PyStr.lower k))
                          json = Some key ->
          ingest_api._ts_crypto_passages symbol market json max_days
          = PyVal.Ok (map (fun it => ingest_api.crypto_passage symbol market
                                       (fst it) (snd it))
                          items)).
Proof.
  intros symbol market json max_days key s Hseries.
  destruct (newest_first_spec s max_days) as (rest & Hperm & Hlen & Hord & Hold).
  exists (ingest_api.newest_first s max_days), rest.
  split; [exact Hperm|]. split; [exact Hlen|]. split; [exact Hord|].
  split; [exact Hold|]. split.
  - intros Hkey.
    exact (_ts_stock_passages_series symbol json max_days key s Hkey Hseries).
  - intros Hkey.
    exact (_ts_crypto_passages_series symbol market json max_days key s
             Hkey Hseries).
Qed.

Lemma passages_newest_first_witness :
  exists items : list (string * PyVal.row),
    ingest_api._ts_stock_passages "AAPL" Samples.three_days_body 2
    = PyVal.Ok (map (fun it => ingest_api.stock_passage "AAPL" (fst it) (snd it))
                    items)
    /\ length items = 2.
Proof.
  destruct (passages_newest_first "AAPL" "USD" Samples.three_days_body 2
              "Time Series (Daily)" Samples.three_days eq_refl)
    as (items & rest & _ & Hlen & _ & _ & Hstock & _).
  exists items. split; [exact (Hstock eq_refl) | exact Hlen].
Defined.

(* ===================================================================== *)
(** * Lengths, prefixes and letter case *)
(* ===================================================================== *)

Section StringFacts.

Lemma len_append (a b : string) : PyStr.len (a +:+ b) = PyStr.len a + PyStr.len b.
Proof.
  induction a as [|c a IH]; [reflexivity|].
  rewrite append_cons. unfold PyStr.len in *. simpl. rewrite IH. reflexivity.
Qed.

Lemma len_take (n : nat) (s : string) : PyStr.len (PyStr.take n s) <= n.
Proof.
  revert s. induction n as [|n IH]; intros [|c s]; simpl; try lia.
  unfold PyStr.len in *. simpl. specialize (IH s). lia.
Qed.

Lemma startswith_refl (s : string) : PyStr.startswith s s = true.
Proof.
  induction s as [|c s IH]; simpl; [reflexivity|].
  rewrite Ascii.eqb_refl. exact IH.
Qed.

Lemma startswith_trans (a b c : string) :
  PyStr.startswith a b = true -> PyStr.startswith b c = true ->
  PyStr.startswith a c = true.
Proof.
  revert b c. induction a as [|x a IH]; intros [|y b] [|z c]; simpl;
    try reflexivity; try discriminate.
  intros Hab Hbc.
  apply andb_prop in Hab as [Hxy Hab]. apply andb_prop in Hbc as [Hyz Hbc].
  apply Ascii.eqb_eq in Hxy as ->. rewrite Hyz. simpl. exact (IH b c Hab Hbc).
Qed.

Lemma startswith_len (a b : string) :
  PyStr.startswith a b = true -> PyStr.len a <= PyStr.len b.
Proof.
  revert b. induction a as [|x a IH]; intros [|y b]; unfold PyStr.len in *; simpl;
    try lia; try discriminate.
  intros H. apply andb_prop in H as [_ H]. specialize (IH b H). lia.
Qed.

Lemma startswith_take (n : nat) (s : string) :
  PyStr.startswith (PyStr.take n s) s = true.
Proof.
  revert s. induction n as [|n IH]; intros [|c s]; simpl; try reflexivity.
  rewrite Ascii.eqb_refl. apply IH.
Qed.

Lemma before_last_prefix (sep : ascii) (s r : string) :
  PyStr.before_last sep s = Some r -> PyStr.startswith r s = true.
Proof.
  revert r. induction s as [|c s IH]; simpl; intros r; [discriminate|].
  destruct (PyStr.before_last sep s) as [r'|].
  - intros Heq. injection Heq as <-. simpl. rewrite Ascii.eqb_refl. apply IH.
    reflexivity.
  - destruct (Ascii.eqb c sep); [|discriminate].
    intros Heq. injection Heq as <-. reflexivity.
Qed.

(** What [rsplit(sep, 1)[0]] returns opens the text it was cut from. *)
Lemma rsplit1_head_prefix (sep : ascii) (s : string) :
  PyStr.startswith (PyStr.rsplit1_head sep s) s = true.
Proof.
  unfold PyStr.rsplit1_head.
  destruct (PyStr.before_last sep s) as [r|] eqn:Hr.
  - exact (before_last_prefix sep s r Hr).
  - apply startswith_refl.
Qed.

Lemma lower_append (a b : string) :
  PyStr.lower (a +:+ b) = PyStr.lower a +:+ PyStr.lower b.
Proof.
  induction a as [|c a IH]; [reflexivity|].
  rewrite append_cons. simpl. rewrite IH. reflexivity.
Qed.

Lemma lower_char_idem (c : ascii) :
  PyStr.lower_char (PyStr.lower_char c) = PyStr.lower_char c.
Proof.
  destruct c as [b0 b1 b2 b3 b4 b5 b6 b7].
  destruct b0, b1, b2, b3, b4, b5, b6, b7; reflexivity.
Qed.

Lemma lower_idem (s : string) : PyStr.lower (PyStr.lower s) = PyStr.lower s.
Proof.
  induction s as [|c s IH]; simpl; [reflexivity|].
  rewrite lower_char_idem, IH. reflexivity.
Qed.

Lemma startswith_append_r (k s b : string) :
  PyStr.startswith k s = true -> PyStr.startswith k (s +:+ b) = true.
Proof.
  revert s. induction k as [|x k IH]; intros [|y s] H;
    try reflexivity; try discriminate H.
  rewrite append_cons. simpl in *. apply andb_prop in H as [Hxy H].
  rewrite Hxy. simpl. apply IH. exact H.
Qed.

Lemma contains_append_r (k s b : string) :
  PyStr.contains k s = true -> PyStr.contains k (s +:+ b) = true.
Proof.
  induction s as [|c s IH]; intros H.
  - destruct k; [|discriminate H]. destruct b; reflexivity.
  - rewrite append_cons.
    change (PyStr.contains k (String c s))
      with (PyStr.startswith k (String c s) || PyStr.contains k s) in H.
    apply orb_prop in H as [H | H].
    + change (PyStr.contains k (String c (s +:+ b)))
        with (PyStr.startswith k (String c (s +:+ b))
              || PyStr.contains k (s +:+ b)).
      rewrite <- append_cons, (startswith_append_r k (String c s) b H).
      reflexivity.
    + change (PyStr.contains k (String c (s +:+ b)))
        with (PyStr.startswith k (String c (s +:+ b))
              || PyStr.contains k (s +:+ b)).
      rewrite (IH H). apply orb_true_r.
Qed.

Lemma contains_append_l (k a s : string) :
  PyStr.contains k s = true -> PyStr.contains k (a +:+ s) = true.
Proof.
  intros H. induction a as [|c a IH]; [exact H|].
  rewrite append_cons.
  change (PyStr.contains k (String c (a +:+ s)))
    with (PyStr.startswith k (String c (a +:+ s)) || PyStr.contains k (a +:+ s)).
  rewrite IH. apply orb_true_r.
Qed.

(** A keyword found in the lowered query is found in the lowered query
    with any text put before and after it. *)
Lemma keyword_in_context (keywords : list string) (q a b : string) :
  existsb (fun k => PyStr.contains k (PyStr.lower q)) keywords = true ->
  existsb (fun k => PyStr.contains k (PyStr.lower (a +:+ q +:+ b))) keywords = true.
Proof.
  intros H. apply existsb_exists in H as (k & Hin & Hk).
  apply existsb_exists. exists k. split; [exact Hin|].
  rewrite !lower_append. apply contains_append_l, contains_append_r. exact Hk.
Qed.
End StringFacts.

(** X7.  [_shorten_text] returns a text of at most [max_chars + 4]
    characters.  A text within [max_chars] is returned as it is; a longer
    one is cut to a stem that opens the text and has at most [max_chars]
    characters, followed by a space and three dots. *)
Theorem shorten_text_bound :
  forall (text : string) (max_chars : nat),
    PyStr.len (rag_chain._shorten_text text max_chars) <= max_chars + 4
    /\ (PyStr.len text <= max_chars ->
        rag_chain._shorten_text text max_chars = text)
    /\ (max_chars < PyStr.len text ->
        exists stem,
          rag_chain._shorten_text text max_chars = stem +:+ " ..."
          /\ PyStr.startswith stem text = true
          /\ PyStr.len stem <= max_chars).
Proof.
  intros text max_chars.
  assert (Hlong : max_chars < PyStr.len text ->
                  exists stem,
                    rag_chain._shorten_text text max_chars = stem +:+ " ..."
                    /\ PyStr.startswith stem text = true
                    /\ PyStr.len stem <= max_chars).
  { intros Hlt. unfold rag_chain._shorten_text.
    destruct text as [|c text]; [unfold PyStr.len in Hlt; simpl in Hlt; lia|].
    simpl PyStr.nonempty. simpl negb. cbv iota.
    destruct (Nat.leb_spec (PyStr.len (String c text)) max_chars) as [Hle | _];
      [lia|].
    exists (PyStr.rsplit1_head " " (PyStr.take max_chars (String c text))).
    split; [reflexivity|]. split.
    - eapply startswith_trans; [apply rsplit1_head_prefix | apply startswith_take].
    - pose proof (startswith_len _ _
                    (rsplit1_head_prefix " " (PyStr.take max_chars (String c text)))).
      pose proof (len_take max_chars (String c text)). lia. }
  split; [|split; [apply _shorten_text_short | exact Hlong]].
  destruct (Nat.le_gt_cases (PyStr.len text) max_chars) as [Hle | Hgt].
  - rewrite (_shorten_text_short text max_chars Hle). lia.
  - destruct (Hlong Hgt) as (stem & -> & _ & Hstem).
    rewrite len_append. change (PyStr.len " ...") with 4. lia.
Qed.

(** X8.  The two keyword tests are blind to letter case and to what
    surrounds a keyword: a query that passes keeps passing when any text is
    put before or after it (as the front end does with a symbol hint), and
    lowering the query changes nothing. *)
Theorem keyword_tests_monotone :
  forall (query before after : string),
    (rag_chain._contains_numeric_request query = true ->
     rag_chain._contains_numeric_request (before +:+ query +:+ after) = true)
    /\ (rag_chain._is_company_query query = true ->
        rag_chain._is_company_query (before +:+ query +:+ after) = true)
    /\ rag_chain._contains_numeric_request (PyStr.lower query)
       = rag_chain._contains_numeric_request query
    /\ rag_chain._is_company_query (PyStr.lower query)
       = rag_chain._is_company_query query.
Proof.
  intros query before after.
  unfold rag_chain._contains_numeric_request, rag_chain._is_company_query.
  cbv zeta. rewrite lower_idem.
  split; [apply keyword_in_context|].
  split; [apply keyword_in_context|]. split; reflexivity.
Qed.

Lemma keyword_tests_monotone_witness :
  rag_chain._contains_numeric_request ("BTC " +:+ "What was the Close?" +:+ "")
  = true.
Proof.
  destruct (keyword_tests_monotone "What was the Close?" "BTC " "") as [Hnum _].
  apply Hnum. reflexivity.
Defined.

(* ===================================================================== *)
(** * More on the prompt, the chunk order and the answer *)
(* ===================================================================== *)

Section PromptFacts.
Import chroma rag_chain.

Lemma len_context (chunks : list chunk) :
  PyStr.len (foldl (fun acc ch => acc +:+ PyStr.take 200 (text ch) +:+ PyStr.NL)
                   "" (take 2 chunks))
  <= 402.
Proof.
  destruct chunks as [|c1 [|c2 rest]].
  - change (PyStr.len "" <= 402). unfold PyStr.len. simpl. lia.
  - change (take 2 [c1]) with [c1]. cbn [foldl].
    rewrite !len_append. pose proof (len_take 200 (text c1)).
    change (PyStr.len "") with 0. change (PyStr.len PyStr.NL) with 1. lia.
  - change (take 2 (c1 :: c2 :: rest)) with [c1; c2]. cbn [foldl].
    rewrite !len_append.
    pose proof (len_take 200 (text c1)). pose proof (len_take 200 (text c2)).
    change (PyStr.len "") with 0. change (PyStr.len PyStr.NL) with 1. lia.
Qed.

Lemma contains_comma_cons (c : ascii) (s : string) :
  PyStr.contains "," (String c s) = Ascii.eqb "," c || PyStr.contains "," s.
Proof. simpl. rewrite andb_true_r. reflexivity. Qed.

Lemma remove_char_comma (s : string) :
  PyStr.contains "," (PyStr.remove_char "," s) = false.
Proof.
  induction s as [|c s IH]; [reflexivity|]. simpl PyStr.remove_char.
  destruct (Ascii.eqb c ",") eqn:Hc; [exact IH|].
  rewrite contains_comma_cons, IH, Ascii.eqb_sym, Hc. reflexivity.
Qed.
End PromptFacts.

(** X9.  The prompt of a query that asks for no figure has a bounded
    size, whatever the chunks: at most 455 characters besides the query.
    The prompt of a numeric query with context grows with the best chunk:
    it has 53 characters besides the query and the whole text of that
    chunk. *)
Theorem build_prompt_size :
  forall (query : string) (chunks : list rag_chain.chunk),
    (rag_chain._contains_numeric_request query = false ->
     PyStr.len (rag_chain._build_prompt query chunks) <= 455 + PyStr.len query)
    /\ (forall best rest,
           chunks = best :: rest ->
           rag_chain._contains_numeric_request query = true ->
           PyStr.len (rag_chain._build_prompt query chunks)
           = 53 + PyStr.len (rag_chain.text best) + PyStr.len query).
Proof.
  intros query chunks. split.
  - intros Hnum. unfold rag_chain._build_prompt. rewrite Hnum.
    destruct (rag_chain._is_company_query query).
    + destruct chunks as [|best rest].
      * rewrite !len_append. pose proof (len_context []).
        change (PyStr.len "Context: ") with 9.
        change (PyStr.len "Question: ") with 10.
        change (PyStr.len "Answer:") with 7.
        change (PyStr.len PyStr.NL) with 1. lia.
      * rewrite !len_append. pose proof (len_take 400 (rag_chain.text best)).
        change (PyStr.len "Summarize this company information: ") with 36.
        change (PyStr.len "Question: ") with 10.
        change (PyStr.len "Answer:") with 7.
        change (PyStr.len PyStr.NL) with 1. lia.
    + rewrite !len_append. pose proof (len_context chunks).
      change (PyStr.len "Context: ") with 9.
      change (PyStr.len "Question: ") with 10.
      change (PyStr.len "Answer:") with 7.
      change (PyStr.len PyStr.NL) with 1. lia.
  - intros best rest -> Hnum. unfold rag_chain._build_prompt. rewrite Hnum.
    rewrite !len_append.
    change (PyStr.len "Extract the price from this data: ") with 34.
    change (PyStr.len "Question: ") with 10.
    change (PyStr.len "Answer:") with 7.
    change (PyStr.len PyStr.NL) with 1. lia.
Qed.

Lemma build_prompt_size_witness :
  PyStr.len (rag_chain._build_prompt "Summarize company overview"
                                     [Samples.long_chunk])
  <= 455 + 26
  /\ PyStr.len (rag_chain._build_prompt "What was the close price?"
                                        [Samples.long_chunk])
     = 53 + 1300 + 25.
Proof.
  split.
  - destruct (build_prompt_size "Summarize company overview" [Samples.long_chunk])
      as [Hbound _].
    apply Hbound. reflexivity.
  - destruct (build_prompt_size "What was the close price?" [Samples.long_chunk])
      as [_ Hsize].
    exact (Hsize Samples.long_chunk [] eq_refl eq_refl).
Defined.

(** The figure [_extract_numeric_from_text] returns holds no comma,
    whatever the text. *)
Lemma extract_numeric_no_comma :
  forall text : string,
    PyStr.contains "," (rag_chain._extract_numeric_from_text text) = false.
Proof.
  intros text. unfold rag_chain._extract_numeric_from_text.
  destruct (Regex.findall rag_chain._NUMERIC_RE text) as [|m0 rest];
    [reflexivity | apply remove_char_comma].
Qed.

Section OrderFacts.
Import chroma rag_chain.

Lemma filter_partition_perm {A : Type} (p : A -> bool) (l : list A) :
  Permutation (List.filter p l ++ List.filter (fun x => negb (p x)) l) l.
Proof.
  induction l as [|x l IH]; simpl; [reflexivity|].
  destruct (p x); simpl.
  - apply perm_skip. exact IH.
  - apply Permutation_sym, Permutation_cons_app, Permutation_sym. exact IH.
Qed.

Lemma filter_all {A : Type} (p : A -> bool) (l : list A) :
  Forall (fun x => p x = true) l -> List.filter p l = l.
Proof.
  induction 1 as [|x l Hx _ IH]; simpl; [reflexivity|].
  rewrite Hx, IH. reflexivity.
Qed.

Lemma filter_none {A : Type} (p : A -> bool) (l : list A) :
  Forall (fun x => p x = false) l -> List.filter p l = [].
Proof.
  induction 1 as [|x l Hx _ IH]; simpl; [reflexivity|].
  rewrite Hx, IH. reflexivity.
Qed.

Lemma filter_of_filter {A : Type} (p q : A -> bool) (l : list A) :
  (forall x, p x = true -> q x = true) ->
  List.filter p (List.filter q l) = List.filter p l.
Proof.
  intros Hpq. induction l as [|x l IH]; simpl; [reflexivity|].
  destruct (q x) eqn:Hq; simpl.
  - rewrite IH. reflexivity.
  - destruct (p x) eqn:Hp; [|exact IH].
    rewrite (Hpq x Hp) in Hq. discriminate.
Qed.

Lemma filter_sorted_forall {A K : Type} (lt : K -> K -> bool) (key : A -> K)
      (p : A -> bool) (b : bool) (l : list A) :
  Forall (fun x => p x = b) (PySort.sorted lt key (List.filter
            (fun x => Bool.eqb (p x) b) l)).
Proof.
  apply (Permutation_Forall (Permutation_sym (sorted_perm lt key _))).
  apply List.Forall_forall. intros x Hin. apply List.filter_In in Hin as [_ Hx].
  apply Bool.eqb_prop in Hx. exact Hx.
Qed.

(** A list in ascending order of key is what [sorted] returns for it. *)
Lemma sorted_of_sorted {A K : Type} (lt : K -> K -> bool) (key : A -> K)
      (l : list A) :
  StronglySorted (fun a b => lt (key b) (key a) = false) l ->
  PySort.sorted lt key l = l.
Proof.
  induction 1 as [|x l _ IH Hall]; simpl; [reflexivity|].
  rewrite IH. destruct l as [|y l]; [reflexivity|]. simpl.
  apply Forall_inv in Hall. rewrite Hall. reflexivity.
Qed.

Lemma StronglySorted_weaken {A : Type} (R S : A -> A -> Prop) (l : list A) :
  (forall a b, R a b -> S a b) -> StronglySorted R l -> StronglySorted S l.
Proof.
  intros HRS. induction 1 as [|x l _ IH Hall]; constructor; [exact IH|].
  eapply List.Forall_impl; [|exact Hall]. intros y. apply HRS.
Qed.

Lemma Qle_not_Qltb (a b : Q) : (a <= b)%Q -> PySort.Qltb b a = false.
Proof.
  intros Hle. unfold PySort.Qltb. apply Qle_bool_iff in Hle.
  rewrite Hle. reflexivity.
Qed.

Lemma sorted_by_score_fixed (l : list chunk) :
  PySort.sorted PySort.Qltb score (PySort.sorted PySort.Qltb score l)
  = PySort.sorted PySort.Qltb score l.
Proof.
  apply sorted_of_sorted.
  eapply StronglySorted_weaken;
    [|apply (sorted_sorted PySort.Qltb score Qle);
      [exact Qle_trans | exact Qltb_le | exact Qltb_ge]].
  intros a b Hle. apply Qle_not_Qltb. exact Hle.
Qed.

(** Inserting into a list leaves in place the elements a test selects,
    when no selected element of the list has a key below that of a selected
    newcomer. *)
Lemma filter_insert {A K : Type} (lt : K -> K -> bool) (key : A -> K)
      (p : A -> bool) (x : A) (l : list A) :
  (forall y, p x = true -> p y = true -> lt (key y) (key x) = false) ->
  List.filter p (PySort.insert lt key x l)
  = if p x then x :: List.filter p l else List.filter p l.
Proof.
  intros Hties. induction l as [|y l IH]; simpl; [reflexivity|].
  destruct (lt (key y) (key x)) eqn:Hlt; simpl.
  - rewrite IH. destruct (p x) eqn:Hx, (p y) eqn:Hy; try reflexivity.
    rewrite (Hties y eq_refl Hy) in Hlt. discriminate.
  - reflexivity.
Qed.

Lemma filter_sorted_ties {A K : Type} (lt : K -> K -> bool) (key : A -> K)
      (p : A -> bool) (l : list A) :
  (forall x y, p x = true -> p y = true -> lt (key y) (key x) = false) ->
  List.filter p (PySort.sorted lt key l) = List.filter p l.
Proof.
  intros Hties. induction l as [|x l IH]; simpl; [reflexivity|].
  rewrite filter_insert by (apply Hties). rewrite IH. reflexivity.
Qed.

Lemma is_overview_as_filter (chunks : list chunk) (b : bool) :
  List.filter (fun ch => Bool.eqb (is_overview ch) b) chunks
  = if b then List.filter is_overview chunks
    else List.filter (fun ch => negb (is_overview ch)) chunks.
Proof.
  destruct b; apply List.filter_ext; intros ch; destruct (is_overview ch);
    reflexivity.
Qed.

(** The two parts of the result of [_prioritize_chunks]. *)
Lemma _prioritize_chunks_parts (chunks : list chunk) (query : string) :
  _prioritize_chunks chunks query
  = PySort.sorted PySort.Qltb score
      (List.filter (fun ch => Bool.eqb (is_overview ch) true) chunks)
    ++ PySort.sorted PySort.Qltb score
         (List.filter (fun ch => Bool.eqb (is_overview ch) false) chunks).
Proof.
  unfold _prioritize_chunks. cbv zeta. rewrite others_are_the_rest.
  rewrite !is_overview_as_filter. reflexivity.
Qed.

Lemma _prioritize_chunks_perm (chunks : list chunk) (query : string) :
  Permutation (_prioritize_chunks chunks query) chunks.
Proof.
  rewrite _prioritize_chunks_parts, !is_overview_as_filter.
  rewrite !sorted_perm. apply filter_partition_perm.
Qed.
End OrderFacts.

(** X11.  [_prioritize_chunks] rearranges the retrieval result without
    losing or repeating a chunk, and its result is in its final order:
    prioritizing it again changes nothing. *)
Theorem prioritize_rearranges :
  forall (chunks : list rag_chain.chunk) (query : string),
    Permutation (rag_chain._prioritize_chunks chunks query) chunks
    /\ length (rag_chain._prioritize_chunks chunks query) = length chunks
    /\ rag_chain._prioritize_chunks
         (rag_chain._prioritize_chunks chunks query) query
       = rag_chain._prioritize_chunks chunks query.
Proof.
  intros chunks query.
  split; [apply _prioritize_chunks_perm|].
  split; [apply Permutation_length, _prioritize_chunks_perm|].
  rewrite (_prioritize_chunks_parts (rag_chain._prioritize_chunks chunks query)).
  rewrite (_prioritize_chunks_parts chunks query).
  set (ov := PySort.sorted PySort.Qltb rag_chain.score
               (List.filter (fun ch => Bool.eqb (rag_chain.is_overview ch) true)
                            chunks)).
  set (ot := PySort.sorted PySort.Qltb rag_chain.score
               (List.filter (fun ch => Bool.eqb (rag_chain.is_overview ch) false)
                            chunks)).
  assert (Hov : Forall (fun ch => rag_chain.is_overview ch = true) ov)
    by apply filter_sorted_forall.
  assert (Hot : Forall (fun ch => rag_chain.is_overview ch = false) ot)
    by apply filter_sorted_forall.
  rewrite !List.filter_app.
  rewrite (filter_all _ ov), (filter_none _ ot), (filter_none _ ov),
    (filter_all _ ot).
  - rewrite app_nil_r. simpl. unfold ov, ot.
    rewrite !sorted_by_score_fixed. reflexivity.
  - eapply List.Forall_impl; [|exact Hot]. intros ch ->. reflexivity.
  - eapply List.Forall_impl; [|exact Hov]. intros ch ->. reflexivity.
  - eapply List.Forall_impl; [|exact Hot]. intros ch ->. reflexivity.
  - eapply List.Forall_impl; [|exact Hov]. intros ch ->. reflexivity.
Qed.

Section StableFacts.
Import chroma rag_chain Spec.

Lemma same_rank_ties (flavour : bool) (s : Q) (x y : chunk) :
  same_rank flavour s x = true -> same_rank flavour s y = true ->
  PySort.Qltb (score y) (score x) = false.
Proof.
  unfold same_rank. intros Hx Hy.
  apply andb_prop in Hx as [_ Hx]. apply andb_prop in Hy as [_ Hy].
  apply Qeq_bool_iff in Hx. apply Qeq_bool_iff in Hy.
  apply Qle_not_Qltb. rewrite Hx, Hy. apply Qle_refl.
Qed.

Lemma same_rank_part (flavour b : bool) (s : Q) (chunks : list chunk) :
  List.filter (same_rank flavour s)
    (PySort.sorted PySort.Qltb score
       (List.filter (fun ch => Bool.eqb (is_overview ch) b) chunks))
  = if Bool.eqb b flavour then List.filter (same_rank flavour s) chunks else [].
Proof.
  destruct (Bool.eqb b flavour) eqn:Hb.
  - apply Bool.eqb_prop in Hb as ->.
    rewrite filter_sorted_ties by (apply same_rank_ties).
    apply filter_of_filter. intros ch Hch. unfold same_rank in Hch.
    apply andb_prop in Hch as [Hch _]. exact Hch.
  - apply filter_none.
    eapply List.Forall_impl; [|apply filter_sorted_forall].
    intros ch Hch. unfold same_rank. rewrite Hch, Hb. reflexivity.
Qed.
End StableFacts.

(** X12.  [_prioritize_chunks] is stable: chunks of the same flavour
    (overview or not) and the same score keep the order in which retrieval
    returned them. *)
Theorem prioritize_stable :
  forall (chunks : list rag_chain.chunk) (query : string)
         (flavour : bool) (s : Q),
    List.filter (Spec.same_rank flavour s)
                (rag_chain._prioritize_chunks chunks query)
    = List.filter (Spec.same_rank flavour s) chunks.
Proof.
  intros chunks query flavour s.
  rewrite _prioritize_chunks_parts, List.filter_app, !same_rank_part.
  destruct flavour; simpl; [apply app_nil_r | reflexivity].
Qed.

(** X13.  On every path through [answer] the chunks returned with the
    text are the first four of the prioritized retrieval result: at most
    four, each of them a chunk that retrieval returned. *)
Theorem answer_citations :
  forall (retrieve : string -> nat -> list rag_chain.chunk)
         (gen : string -> nat -> string)
         (query : string) (k max_new_tokens : nat),
    snd (rag_chain.answer retrieve gen query k max_new_tokens)
    = take 4 (rag_chain._prioritize_chunks (retrieve query k) query)
    /\ length (snd (rag_chain.answer retrieve gen query k max_new_tokens)) <= 4
    /\ (forall ch,
           In ch (snd (rag_chain.answer retrieve gen query k max_new_tokens)) ->
           In ch (retrieve query k)).
Proof.
  intros retrieve gen query k max_new_tokens.
  assert (Hsnd : snd (rag_chain.answer retrieve gen query k max_new_tokens)
                 = take 4 (rag_chain._prioritize_chunks (retrieve query k) query)).
  { unfold rag_chain.answer. cbv zeta.
    destruct (rag_chain.poor_output _); [|reflexivity].
    destruct (rag_chain._contains_numeric_request query).
    - destruct (take 4 _) as [|best rest] eqn:Htake; [reflexivity|].
      destruct (if PyStr.contains "close" (PyStr.lower (rag_chain.text best))
                then Regex.search rag_chain._close_re (rag_chain.text best)
                else None); [reflexivity|].
      destruct (PyStr.nonempty _); reflexivity.
    - destruct (take 4 _) as [|best rest]; reflexivity. }
  rewrite Hsnd. split; [reflexivity|]. split.
  - rewrite length_take. lia.
  - intros ch Hin.
    apply (Permutation_in ch (_prioritize_chunks_perm (retrieve query k) query)).
    rewrite <- (take_drop 4 (rag_chain._prioritize_chunks (retrieve query k) query)).
    apply in_or_app. left. exact Hin.
Qed.

(* ===================================================================== *)
(** * More on the indexer *)
(* ===================================================================== *)

Section IndexMore.
Import PyVal chroma index.
Context {embedding : Type}.
Variable embed : string -> embedding.

Lemma loads_app (l1 l2 : list event) :
  Measure.loads (l1 ++ l2) = Measure.loads l1 + Measure.loads l2.
Proof. unfold Measure.loads. rewrite List.filter_app. apply length_app. Qed.

Lemma loads_get_collection (name : string) (w : world embedding) :
  Measure.loads (log (get_collection name w)) = Measure.loads (log w).
Proof.
  unfold get_collection. destruct (stored w !! name); simpl;
    rewrite loads_app; unfold Measure.loads; simpl; lia.
Qed.

Lemma get_collection_twice (name : string) (w : world embedding) :
  stored (get_collection name (get_collection name w))
  = stored (get_collection name w).
Proof.
  unfold get_collection at 1. rewrite contents_get_collection. reflexivity.
Qed.

Lemma length_enumerate_from {A : Type} (l : list A) :
  forall k, length (enumerate_from k l) = length l.
Proof. induction l as [|x l IH]; intros k; simpl; [reflexivity|]. rewrite IH. reflexivity. Qed.

Lemma length_chunk_rows (docs : list doc) (chunker : string -> list string) :
  length (chunk_rows docs chunker)
  = list_sum (map (fun d => length (chunker (text d))) docs).
Proof.
  unfold chunk_rows. induction docs as [|d docs IH]; simpl; [reflexivity|].
  rewrite length_app, IH, length_map. unfold enumerate.
  rewrite length_enumerate_from. reflexivity.
Qed.

Lemma list_sum_ones {A : Type} (f : A -> nat) (l : list A) :
  (forall x, f x = 1) -> list_sum (map f l) = length l.
Proof.
  intros Hone. induction l as [|x l IH]; simpl; [reflexivity|].
  rewrite Hone, IH. reflexivity.
Qed.


End IndexMore.

(** X14.  [get_collection] is get-or-create: afterwards the store holds
    the named collection with the contents it had (none, if it was absent);
    no other collection changes; a store that held the collection is left
    as it was; and a second call changes nothing more. *)
Theorem get_collection_get_or_create :
  forall (embedding : Type) (name : string) (w : index.world embedding),
    index.stored (index.get_collection name w) !! name
    = Some (default ∅ (index.stored w !! name))
    /\ (forall other, other <> name ->
                      index.stored (index.get_collection name w) !! other
                      = index.stored w !! other)
    /\ (is_Some (index.stored w !! name) ->
        index.stored (index.get_collection name w) = index.stored w)
    /\ index.stored (index.get_collection name (index.get_collection name w))
       = index.stored (index.get_collection name w).
Proof.
  intros embedding name w.
  split; [apply contents_get_collection|].
  split; [intros other Hne; apply other_get_collection; exact Hne|].
  split; [|apply get_collection_twice].
  intros [c Hc]. unfold index.get_collection. rewrite Hc. reflexivity.
Qed.

(** X15.  Whatever the store does on clear and insert and whatever the
    passages, [build_index] touches no collection but the named one, which
    exists afterwards, and it loads the embedding model exactly once in
    every call. *)
Theorem build_index_frame :
  forall (embedding : Type) (embed : string -> embedding)
         (col_delete : gmap string (chroma.entry embedding)
                       -> option (gmap string (chroma.entry embedding)))
         (col_add : gmap string (chroma.entry embedding)
                    -> list (chroma.entry embedding)
                    -> option (gmap string (chroma.entry embedding)))
         (docs : list index.doc) (chunker : string -> list string)
         (name : string) (w : index.world embedding),
    let w' := snd (index.build_index embed col_delete col_add docs chunker
                                     name w) in
    (forall other, other <> name ->
                   index.stored w' !! other = index.stored w !! other)
    /\ is_Some (index.stored w' !! name)
    /\ Measure.loads (index.log w') = Measure.loads (index.log w) + 1.
Proof.
  intros embedding embed col_delete col_add docs chunker name w.
  unfold index.build_index. cbv zeta.
  assert (Hother : forall other, other <> name ->
                     index.stored (index.get_collection name w) !! other
                     = index.stored w !! other)
    by (intros other Hne; apply other_get_collection; exact Hne).
  pose proof (contents_get_collection name w) as Hname.
  pose proof (loads_get_collection name w) as Hloads.
  set (w0 := index.get_collection name w) in *.
  destruct (index.texts_of _) as [|t texts].
  - simpl. split; [intros other Hne; apply Hother; exact Hne|].
    split; [rewrite Hname; eexists; reflexivity|].
    rewrite loads_app, Hloads. unfold Measure.loads. simpl. lia.
  - destruct (col_delete _) as [c|]; destruct (col_add _ _) as [c'|]; simpl;
      (split; [intros other Hne;
               rewrite ?lookup_insert_ne by congruence;
               apply Hother; exact Hne|]);
      (split; [rewrite ?lookup_insert_eq; try rewrite Hname;
               eexists; reflexivity|]);
      rewrite !loads_app, Hloads; unfold Measure.loads; simpl; lia.
Qed.

Lemma build_index_frame_witness :
  index.stored
    (snd (index.build_index Samples.embed_length Samples.delete_raises
            Samples.add_raises Samples.two_docs Samples.identity_chunk "news"
            Samples.used_world))
  !! "docs"
  = index.stored Samples.used_world !! "docs".
Proof.
  destruct (build_index_frame nat Samples.embed_length Samples.delete_raises
              Samples.add_raises Samples.two_docs Samples.identity_chunk "news"
              Samples.used_world) as [Hother _].
  apply Hother. discriminate.
Defined.

(** X16.  Chunk ids are unique: the id of a chunk determines its passage
    id and its index, so passages with distinct ids give chunks with
    distinct ids, whatever the chunking function and the texts. *)
Theorem chunk_ids_distinct :
  forall (docs : list index.doc) (chunker : string -> list string),
    (forall d d' i j,
        index.chunk_id d i = index.chunk_id d' j ->
        index.id d = index.id d' /\ i = j)
    /\ (List.NoDup (map index.id docs) ->
        List.NoDup (index.ids_of (index.chunk_rows docs chunker))).
Proof.
  intros docs chunker. split.
  - intros d d' i j. apply chunk_id_inj.
  - apply chunk_ids_nodup.
Qed.

Lemma chunk_ids_distinct_witness :
  List.NoDup (index.ids_of (index.chunk_rows Samples.two_docs
                                             Samples.identity_chunk)).
Proof.
  destruct (chunk_ids_distinct Samples.two_docs Samples.identity_chunk)
    as [_ Hnodup].
  apply Hnodup. repeat constructor; simpl; intuition discriminate.
Defined.

(** X17.  Over a store that clears and inserts without exception,
    [build_index] returns the number of chunks generated: the sum over the
    passages of the number of pieces the chunking function makes of their
    text, which is the number of passages when every text is one chunk. *)
Theorem build_index_count :
  forall (embedding : Type) (embed : string -> embedding)
         (docs : list index.doc) (chunker : string -> list string)
         (name : string) (w : index.world embedding),
    fst (index.build_index embed chroma.clear_by_filter chroma.batch_insert
                           docs chunker name w)
    = PyVal.Ok (list_sum (map (fun d => length (chunker (index.text d))) docs))
    /\ ((forall t, length (chunker t) = 1) ->
        fst (index.build_index embed chroma.clear_by_filter chroma.batch_insert
                               docs chunker name w)
        = PyVal.Ok (length docs)).
Proof.
  intros embedding embed docs chunker name w.
  assert (Hcount : fst (index.build_index embed chroma.clear_by_filter
                          chroma.batch_insert docs chunker name w)
                   = PyVal.Ok (length (index.chunk_rows docs chunker))).
  { destruct (index.chunk_rows docs chunker) as [|r rows] eqn:Hrows.
    - rewrite build_index_no_text; [reflexivity|]. rewrite Hrows. reflexivity.
    - destruct (build_index_rebuilds embed docs chunker name w)
        as (w1 & Hrun & _); [rewrite Hrows; discriminate|].
      rewrite Hrun, Hrows. reflexivity. }
  rewrite Hcount, length_chunk_rows. split; [reflexivity|].
  intros Hone. rewrite (list_sum_ones (fun d => length (chunker (index.text d)))).
  - reflexivity.
  - intros d. apply Hone.
Qed.

Lemma build_index_count_witness :
  fst (Samples.index_once Samples.two_docs Samples.used_world) = PyVal.Ok 2.
Proof.
  destruct (build_index_count nat Samples.embed_length Samples.two_docs
              Samples.identity_chunk "docs" Samples.used_world) as [_ Hone].
  apply Hone. reflexivity.
Defined.

(** X18.  The rebuild is not atomic: when the clear succeeds and the
    insert raises, [build_index] raises with the named collection left
    empty, whatever it held before. *)
Theorem build_index_failed_insert :
  forall (embedding : Type) (embed : string -> embedding)
         (col_add : gmap string (chroma.entry embedding)
                    -> list (chroma.entry embedding)
                    -> option (gmap string (chroma.entry embedding)))
         (docs : list index.doc) (chunker : string -> list string)
         (name : string) (w : index.world embedding),
    index.chunk_rows docs chunker <> [] ->
    col_add ∅ (index.entries_of embed (index.chunk_rows docs chunker)) = None ->
    exists w' : index.world embedding,
      index.build_index embed chroma.clear_by_filter col_add docs chunker name w
      = (PyVal.Raise PyVal.StoreError, w')
      /\ index.stored w' !! name = Some ∅.
Proof.
  intros embedding embed col_add docs chunker name w Hrows Hraise.
  unfold index.build_index. cbv zeta.
  destruct (index.chunk_rows docs chunker) as [|r rows] eqn:Hr; [congruence|].
  change (index.texts_of (r :: rows))
    with (snd (fst r) :: index.texts_of rows).
  cbv iota beta. unfold chroma.clear_by_filter.
  unfold index.contents at 1. simpl index.stored.
  rewrite lookup_insert_eq. simpl default. rewrite Hraise.
  eexists. split; [reflexivity|]. simpl. apply lookup_insert_eq.
Qed.

Lemma build_index_failed_insert_witness :
  exists w' : index.world nat,
    index.build_index Samples.embed_length chroma.clear_by_filter
                      Samples.add_raises Samples.two_docs Samples.identity_chunk
                      "docs" Samples.used_world
    = (PyVal.Raise PyVal.StoreError, w')
    /\ index.stored w' !! "docs" = Some ∅.
Proof.
  apply (build_index_failed_insert nat Samples.embed_length Samples.add_raises
           Samples.two_docs Samples.identity_chunk "docs" Samples.used_world).
  - discriminate.
  - reflexivity.
Defined.


(* ===================================================================== *)
(** * The retriever *)
(* ===================================================================== *)

Section RetrieverFacts.
Import chroma index retriever.

Lemma length_zip_chunks (docs : list string) :
  forall (metas : list metadata) (dists : list Q),
    length (zip_chunks docs metas dists)
    = Nat.min (length docs) (Nat.min (length metas) (length dists)).
Proof.
  induction docs as [|doc docs IH]; intros [|m metas] [|dist dists]; simpl;
    try reflexivity.
  rewrite IH. reflexivity.
Qed.

Lemma texts_zip_chunks (docs : list string) :
  forall (metas : list metadata) (dists : list Q),
    map rag_chain.text (zip_chunks docs metas dists)
    = take (length (zip_chunks docs metas dists)) docs.
Proof.
  induction docs as [|doc docs IH]; intros [|m metas] [|dist dists]; simpl;
    try reflexivity.
  rewrite IH. reflexivity.
Qed.

Lemma metas_zip_chunks (docs : list string) :
  forall (metas : list metadata) (dists : list Q),
    map rag_chain.meta (zip_chunks docs metas dists)
    = take (length (zip_chunks docs metas dists)) metas.
Proof.
  induction docs as [|doc docs IH]; intros [|m metas] [|dist dists]; simpl;
    try reflexivity.
  rewrite IH. reflexivity.
Qed.

Lemma scores_zip_chunks (docs : list string) :
  forall (metas : list metadata) (dists : list Q),
    map rag_chain.score (zip_chunks docs metas dists)
    = take (length (zip_chunks docs metas dists)) dists.
Proof.
  induction docs as [|doc docs IH]; intros [|m metas] [|dist dists]; simpl;
    try reflexivity.
  rewrite IH. reflexivity.
Qed.
End RetrieverFacts.

(** X20.  The retriever loads the embedding model at most once in a
    process: a call of [retrieve] loads it only if no earlier call has, and
    leaves it loaded. *)
Theorem retrieve_loads_once :
  forall (embedding : Type) (embed : string -> embedding)
         (col_query : gmap string (chroma.entry embedding) -> embedding -> nat
                      -> list string * list chroma.metadata * list Q)
         (query : string) (k : nat) (name : string)
         (p : retriever.process embedding),
    let p' := snd (retriever.retrieve embed col_query query k name p) in
    retriever._embedder p' = true
    /\ Measure.loads (index.log (retriever.world p'))
       = Measure.loads (index.log (retriever.world p))
         + (if retriever._embedder p then 0 else 1).
Proof.
  intros embedding embed col_query query k name p.
  unfold retriever.retrieve, retriever._get_embedder. cbv zeta. simpl.
  pose proof (loads_get_collection name (retriever.world p)) as Hloads.
  destruct (retriever._embedder p); simpl.
  - split; [reflexivity|]. rewrite loads_app, Hloads.
    unfold Measure.loads. simpl. lia.
  - split; [reflexivity|]. rewrite !loads_app, Hloads.
    unfold Measure.loads. simpl. lia.
Qed.

(** X21.  [retrieve] returns one chunk for each hit of the store, in the
    order of the store's answer, as many as the shortest of the three
    answer lists holds: the texts, the metadata and the scores of the
    chunks are the documents, the metadata and the distances of the answer,
    cut to that number.  It creates the named collection when the store has
    none and changes the contents of no collection. *)
Theorem retrieve_result :
  forall (embedding : Type) (embed : string -> embedding)
         (col_query : gmap string (chroma.entry embedding) -> embedding -> nat
                      -> list string * list chroma.metadata * list Q)
         (query : string) (k : nat) (name : string)
         (p : retriever.process embedding),
    let out := col_query (default ∅ (index.stored (retriever.world p) !! name))
                         (embed query) k in
    let hits := fst (retriever.retrieve embed col_query query k name p) in
    let p' := snd (retriever.retrieve embed col_query query k name p) in
    length hits
    = Nat.min (length (fst (fst out)))
              (Nat.min (length (snd (fst out))) (length (snd out)))
    /\ map rag_chain.text hits = take (length hits) (fst (fst out))
    /\ map rag_chain.meta hits = take (length hits) (snd (fst out))
    /\ map rag_chain.score hits = take (length hits) (snd out)
    /\ index.stored (retriever.world p') !! name
       = Some (default ∅ (index.stored (retriever.world p) !! name))
    /\ (forall other, other <> name ->
                      index.stored (retriever.world p') !! other
                      = index.stored (retriever.world p) !! other).
Proof.
  intros embedding embed col_query query k name p.
  assert (Hstore : index.stored
                     (retriever.world
                        (snd (retriever.retrieve embed col_query query k name p)))
                   = index.stored (index.get_collection name (retriever.world p))).
  { unfold retriever.retrieve, retriever._get_embedder. cbv zeta. simpl.
    destruct (retriever._embedder p); reflexivity. }
  assert (Hout : fst (retriever.retrieve embed col_query query k name p)
                 = let out := col_query
                                (default ∅ (index.stored (retriever.world p) !! name))
                                (embed query) k in
                   retriever.zip_chunks (fst (fst out)) (snd (fst out)) (snd out)).
  { unfold retriever.retrieve, retriever._get_embedder. cbv zeta. simpl.
    assert (Hc : forall w' : index.world embedding,
               index.stored w'
               = index.stored (index.get_collection name (retriever.world p)) ->
               index.contents name w'
               = default ∅ (index.stored (retriever.world p) !! name)).
    { intros w' Hw'. unfold index.contents. rewrite Hw'.
      rewrite contents_get_collection. reflexivity. }
    destruct (retriever._embedder p); simpl; rewrite Hc; reflexivity. }
  cbv zeta. rewrite Hout, Hstore. cbv zeta.
  split; [apply length_zip_chunks|]. split; [apply texts_zip_chunks|].
  split; [apply metas_zip_chunks|]. split; [apply scores_zip_chunks|].
  split; [apply contents_get_collection|].
  intros other Hne. apply other_get_collection. exact Hne.
Qed.

(* ===================================================================== *)
(** * The matcher finds only matches *)
(* ===================================================================== *)

Section MatcherFacts.
Import Regex RegexSpec.
Context {A : Type}.

Lemma run_Rep (greedy : bool) (lo : nat) (hi : option nat) (r : regex)
      (st : input) (cs : caps) (k : input -> caps -> option A) :
  run (Rep greedy lo hi r) st cs k
  = rep_loop (run r) greedy lo hi k (PyStr.len (rest st) + lo + 1) 0 st cs.
Proof. reflexivity. Qed.

Lemma below_le (cnt : nat) (hi : option nat) :
  below cnt hi = true -> forall h, hi = Some h -> S cnt <= h.
Proof.
  intros Hb h ->. simpl in Hb. apply Nat.ltb_lt in Hb. lia.
Qed.

(** The loop of a quantifier over a sound matcher for the body takes some
    number of steps of the body, within the bounds, before it continues. *)
Lemma rep_loop_sound
      (body : input -> caps -> (input -> caps -> option A) -> option A)
      (R : input -> caps -> input -> caps -> Prop)
      (greedy : bool) (lo : nat) (hi : option nat)
      (k : input -> caps -> option A) :
  (forall st cs k' a, body st cs k' = Some a ->
                      exists st1 cs1, R st cs st1 cs1 /\ k' st1 cs1 = Some a) ->
  forall (fuel cnt : nat) (st : input) (cs : caps) (a : A),
    (forall h, hi = Some h -> cnt <= h) ->
    rep_loop body greedy lo hi k fuel cnt st cs = Some a ->
    exists n st' cs',
      iter R n st cs st' cs' /\ lo <= cnt + n
      /\ (forall h, hi = Some h -> cnt + n <= h)
      /\ k st' cs' = Some a.
Proof.
  intros Hbody. induction fuel as [|fuel IH]; intros cnt st cs a Hcnt Hrun;
    [discriminate Hrun|].
  assert (Hstop : (if Nat.leb lo cnt then k st cs else None) = Some a ->
                  exists n st' cs',
                    iter R n st cs st' cs' /\ lo <= cnt + n
                    /\ (forall h, hi = Some h -> cnt + n <= h)
                    /\ k st' cs' = Some a).
  { destruct (Nat.leb_spec lo cnt) as [Hle | _]; [|discriminate].
    intros Hk. exists 0, st, cs. simpl. repeat split; try assumption; try lia.
    intros h Hh. specialize (Hcnt h Hh). lia. }
  assert (Hmore : (if below cnt hi then
                     body st cs (fun st' cs' =>
                       if Nat.ltb (PyStr.len (rest st')) (PyStr.len (rest st))
                          || Nat.ltb cnt lo
                       then rep_loop body greedy lo hi k fuel (S cnt) st' cs'
                       else None)
                   else None) = Some a ->
                  exists n st' cs',
                    iter R n st cs st' cs' /\ lo <= cnt + n
                    /\ (forall h, hi = Some h -> cnt + n <= h)
                    /\ k st' cs' = Some a).
  { destruct (below cnt hi) eqn:Hbelow; [|discriminate].
    intros Hb. apply Hbody in Hb as (st1 & cs1 & Hstep & Hnext).
    destruct (_ || _); [|discriminate].
    apply IH in Hnext as (n & st' & cs' & Hiter & Hlo & Hhi & Hk).
    - exists (S n), st', cs'. split; [exists st1, cs1; split; assumption|].
      split; [lia|]. split; [|exact Hk].
      intros h Hh. specialize (Hhi h Hh). lia.
    - apply below_le. exact Hbelow. }
  simpl in Hrun. destruct greedy.
  - destruct (if below cnt hi then _ else None) as [a0|] eqn:Htry.
    + injection Hrun as ->. apply Hmore. reflexivity.
    + apply Hstop. exact Hrun.
  - destruct (if Nat.leb lo cnt then k st cs else None) as [a0|] eqn:Htry.
    + injection Hrun as ->. apply Hstop. reflexivity.
    + apply Hmore. exact Hrun.
Qed.

(** Whatever [run] hands to its continuation was reached by a match. *)
Lemma run_sound (r : regex) :
  forall (st : input) (cs : caps) (k : input -> caps -> option A) (a : A),
    run r st cs k = Some a ->
    exists st' cs', Matches r st cs st' cs' /\ k st' cs' = Some a.
Proof.
  induction r as [p| |r1 IH1 r2 IH2|greedy lo hi r IH|i r IH|];
    intros st cs k a Hrun.
  - simpl in Hrun. destruct st as [pv [|c s]]; simpl in Hrun; [discriminate|].
    destruct (p c) eqn:Hp; [|discriminate].
    exists (Input (Some c) s), cs. split; [|exact Hrun].
    exists c. repeat split; assumption.
  - exists st, cs. split; [split; reflexivity | exact Hrun].
  - simpl in Hrun. apply IH1 in Hrun as (st1 & cs1 & H1 & Hrun).
    apply IH2 in Hrun as (st2 & cs2 & H2 & Hk).
    exists st2, cs2. split; [exists st1, cs1; split; assumption | exact Hk].
  - rewrite run_Rep in Hrun.
    apply (rep_loop_sound (run r) (Matches r)) in Hrun
      as (n & st' & cs' & Hiter & Hlo & Hhi & Hk).
    + exists st', cs'. split; [|exact Hk].
      exists n. split; [lia|]. split; [exact Hhi | exact Hiter].
    + exact IH.
    + intros h _. lia.
  - simpl in Hrun. apply IH in Hrun as (st' & cs1 & Hm & Hk).
    eexists. eexists. split; [|exact Hk]. exists cs1. split; [exact Hm | reflexivity].
  - simpl in Hrun.
    destruct (xorb (wordp (prev st)) (wordp (peek (rest st)))) eqn:Hb;
      [|discriminate].
    exists st, cs. split; [repeat split; assumption | exact Hrun].
Qed.
End MatcherFacts.

Section MatchFacts.
Import Regex RegexSpec.

Lemma all_chars_append (P : ascii -> bool) (a b : string) :
  PyStr.all_chars P (a +:+ b) = PyStr.all_chars P a && PyStr.all_chars P b.
Proof.
  induction a as [|c a IH]; [reflexivity|].
  rewrite append_cons. simpl. rewrite IH. apply andb_assoc.
Qed.

Lemma all_chars_weaken (P Q : ascii -> bool) (s : string) :
  (forall c, P c = true -> Q c = true) ->
  PyStr.all_chars P s = true -> PyStr.all_chars Q s = true.
Proof.
  intros HPQ. induction s as [|c s IH]; simpl; [reflexivity|].
  intros H. apply andb_prop in H as [Hc H]. rewrite (HPQ c Hc), (IH H).
  reflexivity.
Qed.

Lemma take_append (w x : string) : PyStr.take (PyStr.len w) (w +:+ x) = w.
Proof.
  induction w as [|c w IH]; [destruct x; reflexivity|].
  rewrite append_cons. unfold PyStr.len in *. simpl. rewrite IH. reflexivity.
Qed.

(** What a match reads is what stands between its two positions. *)
Lemma consumed_reads (st st' : input) (w : string) :
  rest st = w +:+ rest st' -> consumed st st' = w.
Proof.
  intros Hw. unfold consumed. rewrite Hw, len_append.
  replace (PyStr.len w + PyStr.len (rest st') - PyStr.len (rest st'))
    with (PyStr.len w) by lia.
  apply take_append.
Qed.

Lemma iter_reads (P : ascii -> bool)
      (R : input -> caps -> input -> caps -> Prop) :
  (forall st cs st' cs', R st cs st' cs' ->
                         exists w, rest st = w +:+ rest st'
                                   /\ PyStr.all_chars P w = true) ->
  forall n st cs st' cs',
    iter R n st cs st' cs' ->
    exists w, rest st = w +:+ rest st' /\ PyStr.all_chars P w = true.
Proof.
  intros HR. induction n as [|n IH]; intros st cs st' cs'; simpl.
  - intros [-> _]. exists "". split; reflexivity.
  - intros (st1 & cs1 & Hstep & Hiter).
    apply HR in Hstep as (w1 & Hw1 & HP1).
    apply IH in Hiter as (w2 & Hw2 & HP2).
    exists (w1 +:+ w2). rewrite Hw1, Hw2, append_assoc, all_chars_append, HP1, HP2.
    split; reflexivity.
Qed.

(** A match reads a stretch of the subject, made of characters the
    pattern can read. *)
Lemma Matches_reads (P : ascii -> bool) (r : regex) :
  reads_only P r ->
  forall st cs st' cs',
    Matches r st cs st' cs' ->
    exists w, rest st = w +:+ rest st' /\ PyStr.all_chars P w = true.
Proof.
  induction r as [p| |r1 IH1 r2 IH2|greedy lo hi r IH|i r IH|];
    simpl; intros Hr st cs st' cs' Hm.
  - destruct Hm as (c & Hrest & Hp & _). exists (String c "").
    split; [exact Hrest|]. simpl. rewrite (Hr c Hp). reflexivity.
  - destruct Hm as [-> _]. exists "". split; reflexivity.
  - destruct Hr as [Hr1 Hr2]. destruct Hm as (st1 & cs1 & H1 & H2).
    apply (IH1 Hr1) in H1 as (w1 & Hw1 & HP1).
    apply (IH2 Hr2) in H2 as (w2 & Hw2 & HP2).
    exists (w1 +:+ w2). rewrite Hw1, Hw2, append_assoc, all_chars_append, HP1, HP2.
    split; reflexivity.
  - destruct Hm as (n & _ & _ & Hiter).
    exact (iter_reads P (Matches r) (IH Hr) n st cs st' cs' Hiter).
  - destruct Hm as (cs1 & Hm & _). exact (IH Hr st cs st' cs1 Hm).
  - destruct Hm as [-> _]. exists "". split; reflexivity.
Qed.

Lemma reads_anything (r : regex) : reads_only (fun _ => true) r.
Proof.
  induction r; simpl; auto.
Qed.

Lemma Matches_suffix (r : regex) (st : input) (cs : caps) (st' : input)
      (cs' : caps) :
  Matches r st cs st' cs' -> suffix_of (rest st') (rest st).
Proof.
  intros Hm. apply (Matches_reads (fun _ => true) r (reads_anything r)) in Hm
    as (w & Hw & _).
  exists w. exact Hw.
Qed.

Lemma iter_captures (R : input -> caps -> input -> caps -> Prop) :
  (forall st cs st' cs', R st cs st' cs' -> cs' = cs) ->
  forall n st cs st' cs', iter R n st cs st' cs' -> cs' = cs.
Proof.
  intros HR. induction n as [|n IH]; intros st cs st' cs'; simpl.
  - intros [_ ->]. reflexivity.
  - intros (st1 & cs1 & Hstep & Hiter).
    apply HR in Hstep as ->. exact (IH _ _ _ _ Hiter).
Qed.

(** A pattern without groups leaves the captures as they were. *)
Lemma Matches_captures (r : regex) :
  group_free r ->
  forall st cs st' cs', Matches r st cs st' cs' -> cs' = cs.
Proof.
  induction r as [p| |r1 IH1 r2 IH2|greedy lo hi r IH|i r IH|];
    simpl; intros Hr st cs st' cs' Hm.
  - destruct Hm as (c & _ & _ & _ & ->). reflexivity.
  - destruct Hm as [_ ->]. reflexivity.
  - destruct Hr as [Hr1 Hr2]. destruct Hm as (st1 & cs1 & H1 & H2).
    apply (IH1 Hr1) in H1 as ->. exact (IH2 Hr2 _ _ _ _ H2).
  - destruct Hm as (n & _ & _ & Hiter).
    exact (iter_captures (Matches r) (IH Hr) n st cs st' cs' Hiter).
  - contradiction.
  - destruct Hm as (_ & -> & _). reflexivity.
Qed.

Lemma suffix_of_refl (s : string) : suffix_of s s.
Proof. exists "". reflexivity. Qed.

Lemma suffix_of_tail (c : ascii) (s' s : string) :
  suffix_of s' s -> suffix_of s' (String c s).
Proof. intros (pre & ->). exists (String c pre). reflexivity. Qed.

Lemma suffix_of_trans (a b c : string) :
  suffix_of a b -> suffix_of b c -> suffix_of a c.
Proof.
  intros (p1 & ->) (p2 & ->). exists (p2 +:+ p1). rewrite append_assoc. reflexivity.
Qed.

(** A match found by [match_here] is a match of the pattern at that
    position, with what it read as its text. *)
Lemma match_here_sound (r : regex) (pos : nat) (pv : option ascii) (s : string)
      (mt : rmatch) :
  match_here r pos pv s = Some mt ->
  exists st' cs',
    Matches r (Input pv s) [] st' cs'
    /\ m_whole mt = consumed (Input pv s) st'
    /\ m_groups mt = cs'.
Proof.
  unfold match_here.
  destruct (run r (Input pv s) [] (fun st' cs' => Some (st', cs')))
    as [[st' cs']|] eqn:Hrun; [|discriminate].
  intros Heq. injection Heq as <-.
  apply run_sound in Hrun as (st1 & cs1 & Hm & Hk).
  injection Hk as -> ->. exists st', cs'. repeat split. exact Hm.
Qed.

(** A match found by [search] is a match at the start of some suffix of
    the subject. *)
Lemma search_at_sound (r : regex) (s : string) :
  forall (pos : nat) (pv : option ascii) (mt : rmatch),
    search_at r pos pv s = Some mt ->
    exists pos' pv' s',
      suffix_of s' s /\ match_here r pos' pv' s' = Some mt.
Proof.
  induction s as [|c s IH]; intros pos pv mt; simpl.
  - destruct (match_here r pos pv "") as [m|] eqn:Hm; [|discriminate].
    intros Heq. injection Heq as <-.
    exists pos, pv, "". split; [apply suffix_of_refl | exact Hm].
  - destruct (match_here r pos pv (String c s)) as [m|] eqn:Hm.
    + intros Heq. injection Heq as <-.
      exists pos, pv, (String c s). split; [apply suffix_of_refl | exact Hm].
    + intros Hs. apply IH in Hs as (pos' & pv' & s' & Hsuf & Hm').
      exists pos', pv', s'. split; [apply suffix_of_tail; exact Hsuf | exact Hm'].
Qed.

(** Every text [findall] returns is the text of a match at the start of
    some suffix of the subject. *)
Lemma findall_go_sound (r : regex) (s : string) :
  forall (skip : nat) (pv : option ascii) (m : string),
    In m (findall_go r skip pv s) ->
    exists pv' s' mt,
      suffix_of s' s /\ match_here r 0 pv' s' = Some mt /\ m = m_whole mt.
Proof.
  induction s as [|c s IH]; intros skip pv m.
  - destruct skip as [|n]; simpl; [|intros []].
    destruct (match_here r 0 pv "") as [mt|] eqn:Hm; [|intros []].
    intros [<- | []]. exists pv, "", mt.
    split; [apply suffix_of_refl|]. split; [exact Hm | reflexivity].
  - assert (Htail : forall skip' pv',
               In m (findall_go r skip' pv' s) ->
               exists pv'' s' mt,
                 suffix_of s' (String c s)
                 /\ match_here r 0 pv'' s' = Some mt /\ m = m_whole mt).
    { intros skip' pv' Hin. apply IH in Hin as (pv'' & s' & mt & Hsuf & Hm & ->).
      exists pv'', s', mt. split; [apply suffix_of_tail; exact Hsuf|].
      split; [exact Hm | reflexivity]. }
    destruct skip as [|n]; simpl; [|apply Htail].
    destruct (match_here r 0 pv (String c s)) as [mt|] eqn:Hm; [|apply Htail].
    intros [<- | Hin]; [|exact (Htail _ _ Hin)].
    exists pv, (String c s), mt.
    split; [apply suffix_of_refl|]. split; [exact Hm | reflexivity].
Qed.
End MatchFacts.

(* ===================================================================== *)
(** * What the fallbacks of the answer return *)
(* ===================================================================== *)

Section FallbackFacts.
Import Regex RegexSpec rag_chain.

Lemma suffix_all_chars (P : ascii -> bool) (s' s : string) :
  suffix_of s' s -> PyStr.all_chars P s = true -> PyStr.all_chars P s' = true.
Proof.
  intros (pre & ->). rewrite all_chars_append. intros H.
  apply andb_prop in H as [_ H]. exact H.
Qed.

Lemma prefix_all_chars (P : ascii -> bool) (a b : string) :
  PyStr.startswith a b = true ->
  PyStr.all_chars P b = true -> PyStr.all_chars P a = true.
Proof.
  revert b. induction a as [|x a IH]; intros [|y b]; simpl;
    try reflexivity; try discriminate.
  intros Hab Hb. apply andb_prop in Hab as [Hxy Hab].
  apply andb_prop in Hb as [Hy Hb]. apply Ascii.eqb_eq in Hxy as ->.
  rewrite Hy, (IH b Hab Hb). reflexivity.
Qed.

(** The numeric pattern reads digits, signs, commas and dots only. *)
Lemma _NUMERIC_RE_reads :
  reads_only (fun c => Measure.numeral_char c || Ascii.eqb c ",") _NUMERIC_RE.
Proof.
  unfold Measure.numeral_char, _NUMERIC_RE, opt, plus, chr.
  cbn [cat reads_only].
  repeat match goal with |- _ /\ _ => split end; intros x;
    rewrite ?(Ascii.eqb_sym "." x);
    destruct (PyStr.isdecimal x), (Ascii.eqb x "+"), (Ascii.eqb x "-"),
      (Ascii.eqb x "."), (Ascii.eqb x ","); simpl; congruence.
Qed.

Lemma remove_comma_numeral (w : string) :
  PyStr.all_chars (fun c => Measure.numeral_char c || Ascii.eqb c ",") w = true ->
  PyStr.all_chars Measure.numeral_char (PyStr.remove_char "," w) = true.
Proof.
  induction w as [|c w IH]; simpl; [reflexivity|].
  intros H. apply andb_prop in H as [Hc H].
  destruct (Ascii.eqb c ",") eqn:Hcomma; [exact (IH H)|].
  simpl. rewrite orb_false_r in Hc. rewrite Hc, (IH H). reflexivity.
Qed.

(** A match of the numeric pattern starts in a text that holds a digit. *)
Lemma _NUMERIC_RE_digit (st : input) (cs : caps) (st' : input) (cs' : caps) :
  Matches _NUMERIC_RE st cs st' cs' ->
  PyStr.all_chars (fun c => negb (PyStr.isdecimal c)) (rest st) = false.
Proof.
  intros Hm. simpl in Hm.
  destruct Hm as (st1 & cs1 & Hsign & st2 & cs2 & Hdigits & _).
  destruct Hdigits as (n & Hn & _ & Hiter).
  destruct n as [|n]; [lia|]. simpl in Hiter.
  destruct Hiter as (st1a & cs1a & (c & Hrest & Hc & _) & _).
  destruct Hsign as (m & _ & _ & Hsign).
  apply (iter_reads (fun _ => true)) in Hsign as (w & Hw & _).
  - rewrite Hw, Hrest, all_chars_append. simpl. rewrite Hc. simpl.
    apply andb_false_r.
  - intros sa ca sb cb (c0 & Hc0 & _). exists (String c0 "").
    split; [exact Hc0 | reflexivity].
Qed.

Lemma replace_newline (s : string) :
  PyStr.all_chars Measure.not_newline (PyStr.replace_char "010" " " s) = true.
Proof.
  induction s as [|c s IH]; simpl; [reflexivity|].
  rewrite IH, andb_true_r. unfold Measure.not_newline.
  destruct (Ascii.eqb c "010") eqn:Hc; [reflexivity|]. rewrite Hc. reflexivity.
Qed.

Lemma no_newline_contains (s : string) :
  PyStr.all_chars Measure.not_newline s = true ->
  PyStr.contains PyStr.NL s = false.
Proof.
  induction s as [|c s IH]; [reflexivity|]. simpl PyStr.all_chars.
  intros H. apply andb_prop in H as [Hc H].
  change (PyStr.contains PyStr.NL (String c s))
    with ((Ascii.eqb "010" c && true) || PyStr.contains PyStr.NL s).
  rewrite (IH H), andb_true_r, orb_false_r, Ascii.eqb_sym.
  unfold Measure.not_newline in Hc. apply negb_true_iff in Hc. exact Hc.
Qed.

(** The sentence pattern: what its group reads has no newline and ends in
    a full stop, an exclamation mark or a question mark. *)
Lemma _first_sentence_re_group (st : input) (st' : input) (cs' : caps) :
  Matches _first_sentence_re st [] st' cs' ->
  exists stem c,
    assoc 1 cs' = Some (stem +:+ String c "")
    /\ PyStr.all_chars Measure.not_newline (stem +:+ String c "") = true
    /\ (c = "." \/ c = "!" \/ c = "?")%char.
Proof.
  intros Hm. simpl in Hm.
  destruct Hm as (st2 & cs2 & (cs1 & Hbody & ->) & (sp & _ & _ & _ & ->)).
  destruct Hbody as (st1 & cs0 & Hstem & (c & Hrest & Hc & _ & ->)).
  assert (Hread : exists w, rest st = w +:+ rest st1
                            /\ PyStr.all_chars Measure.not_newline w = true).
  { destruct Hstem as (n & _ & _ & Hiter).
    apply (iter_reads Measure.not_newline) in Hiter; [exact Hiter|].
    intros sa ca sb cb (c0 & Hc0 & Hp & _). exists (String c0 "").
    split; [exact Hc0|]. simpl. unfold Measure.not_newline. rewrite Hp.
    reflexivity. }
  destruct Hread as (w & Hw & Hnl).
  assert (Hmark : (c = "." \/ c = "!" \/ c = "?")%char).
  { apply orb_prop in Hc as [Hc | Hc];
      [apply orb_prop in Hc as [Hc | Hc]|];
      apply Ascii.eqb_eq in Hc; auto. }
  exists w, c. simpl. split; [|split; [|exact Hmark]].
  - f_equal. apply consumed_reads. rewrite Hw, Hrest, append_assoc. reflexivity.
  - rewrite all_chars_append, Hnl. simpl. rewrite andb_true_r.
    destruct Hmark as [-> | [-> | ->]]; reflexivity.
Qed.
End FallbackFacts.

(** The figure of the general fallback, character by character. *)
Lemma extract_numeric_characters (text : string) :
  PyStr.all_chars Measure.numeral_char
                  (rag_chain._extract_numeric_from_text text) = true.
Proof.
  unfold rag_chain._extract_numeric_from_text.
  destruct (Regex.findall rag_chain._NUMERIC_RE text) as [|m0 ms] eqn:Hall;
    [reflexivity|].
  assert (Hin : In m0 (Regex.findall_go rag_chain._NUMERIC_RE 0 None text)).
  { unfold Regex.findall in Hall. rewrite Hall. left. reflexivity. }
  apply findall_go_sound in Hin as (pv & s & mt & Hsuf & Hhere & ->).
  apply match_here_sound in Hhere as (st' & cs' & Hm & Hwhole & _).
  destruct (Matches_reads _ _ _NUMERIC_RE_reads _ _ _ _ Hm) as (w & Hw & HP).
  rewrite Hwhole, (consumed_reads _ _ w Hw).
  apply remove_comma_numeral. exact HP.
Qed.

(** X22.  The figure [_extract_numeric_from_text] returns is made of
    digits, signs and dots only, and it is empty for a text without a
    digit. *)
Theorem extract_numeric_shape :
  forall text : string,
    PyStr.all_chars Measure.numeral_char
                    (rag_chain._extract_numeric_from_text text) = true
    /\ (PyStr.all_chars (fun c => negb (PyStr.isdecimal c)) text = true ->
        rag_chain._extract_numeric_from_text text = "").
Proof.
  intros text. unfold rag_chain._extract_numeric_from_text.
  destruct (Regex.findall rag_chain._NUMERIC_RE text) as [|m0 ms] eqn:Hall;
    [split; reflexivity|].
  assert (Hin : In m0 (Regex.findall_go rag_chain._NUMERIC_RE 0 None text)).
  { unfold Regex.findall in Hall. rewrite Hall. left. reflexivity. }
  apply findall_go_sound in Hin as (pv & s & mt & Hsuf & Hhere & ->).
  apply match_here_sound in Hhere as (st' & cs' & Hm & Hwhole & _).
  split.
  - destruct (Matches_reads _ _ _NUMERIC_RE_reads _ _ _ _ Hm) as (w & Hw & HP).
    rewrite Hwhole, (consumed_reads _ _ w Hw).
    apply remove_comma_numeral. exact HP.
  - intros Hnone. apply _NUMERIC_RE_digit in Hm. simpl in Hm.
    rewrite (suffix_all_chars _ s text Hsuf Hnone) in Hm. discriminate.
Qed.

Lemma extract_numeric_shape_witness :
  rag_chain._extract_numeric_from_text "no figure here" = "".
Proof.
  destruct (extract_numeric_shape "no figure here") as [_ Hnone].
  apply Hnone. reflexivity.
Defined.

(** X23.  What [_first_sentence] returns is a single line: it holds no
    newline.  It ends in a full stop, an exclamation mark or a question
    mark, or else it is a cut of at most 203 characters. *)
Theorem first_sentence_shape :
  forall text : string,
    PyStr.contains PyStr.NL (rag_chain._first_sentence text) = false
    /\ ((exists stem c,
            rag_chain._first_sentence text = stem +:+ String c ""
            /\ (c = "." \/ c = "!" \/ c = "?")%char)
        \/ PyStr.len (rag_chain._first_sentence text) <= 203).
Proof.
  intros text. unfold rag_chain._first_sentence. cbv zeta.
  set (line := PyStr.replace_char "010" " " (PyStr.strip text)).
  assert (Hline : PyStr.all_chars Measure.not_newline line = true)
    by apply replace_newline.
  destruct (Regex.search rag_chain._first_sentence_re line) as [mt|] eqn:Hs.
  - apply search_at_sound in Hs as (pos & pv & s & _ & Hhere).
    apply match_here_sound in Hhere as (st' & cs' & Hm & _ & Hgroups).
    apply _first_sentence_re_group in Hm as (stem & c & Hg & Hnl & Hmark).
    unfold Regex.group. rewrite Hgroups, Hg. simpl default. split.
    + apply no_newline_contains. exact Hnl.
    + left. exists stem, c. split; [reflexivity | exact Hmark].
  - set (cut := PyStr.rsplit1_head " " (PyStr.take 200 line)).
    assert (Hprefix : PyStr.startswith cut (PyStr.take 200 line) = true)
      by apply rsplit1_head_prefix.
    split.
    + apply no_newline_contains. rewrite all_chars_append.
      rewrite (prefix_all_chars _ cut line).
      * destruct (Nat.ltb 200 (PyStr.len line)); reflexivity.
      * eapply startswith_trans; [exact Hprefix | apply startswith_take].
      * exact Hline.
    + right. rewrite len_append.
      pose proof (startswith_len _ _ Hprefix).
      pose proof (len_take 200 line).
      destruct (Nat.ltb 200 (PyStr.len line)).
      * change (PyStr.len "...") with 3. lia.
      * change (PyStr.len "") with 0. lia.
Qed.

Section CloseFacts.
Import Regex RegexSpec rag_chain.

(** The close pattern: its group reads at least one character, all of
    them digits, commas or dots. *)
Lemma _close_re_group (st : input) (st' : input) (cs' : caps) :
  Matches _close_re st [] st' cs' ->
  exists c w,
    assoc 1 cs' = Some (String c w)
    /\ PyStr.all_chars Measure.figure_char (String c w) = true.
Proof.
  intros Hm.
  change (exists st1 cs1,
             Matches (lit_i "close") st [] st1 cs1
             /\ exists st2 cs2,
               Matches (plus (Chr PyStr.isspace)) st1 cs1 st2 cs2
               /\ exists cs_in,
                 (exists sta csa,
                     Matches (plus (Chr (fun c => PyStr.isdecimal c
                                                  || Ascii.eqb c ",")))
                             st2 cs2 sta csa
                     /\ Matches (Cat (opt (chr ".")) (star (Chr PyStr.isdecimal)))
                                sta csa st' cs_in)
                 /\ cs' = (1, consumed st2 st') :: cs_in) in Hm.
  destruct Hm as (st1 & cs1 & Hlit & st2 & cs2 & Hsp & cs_in
                  & (sta & csa & Hplus & Htail) & ->).
  destruct Hplus as (n & Hn & _ & Hiter).
  destruct n as [|n]; [lia|].
  destruct Hiter as (stb & csb & (c & Hrest & Hc & _) & Hiter).
  apply (iter_reads Measure.figure_char) in Hiter as (w1 & Hw1 & HP1).
  - apply (Matches_reads Measure.figure_char) in Htail as (w2 & Hw2 & HP2).
    + exists c, (w1 +:+ w2). simpl assoc. split.
      * f_equal. apply consumed_reads.
        rewrite Hrest, Hw1, Hw2, append_cons, append_assoc. reflexivity.
      * simpl. rewrite all_chars_append, HP1, HP2.
        unfold Measure.figure_char. apply orb_prop in Hc as [-> | ->];
          [reflexivity | rewrite orb_true_r; reflexivity].
    + unfold opt, star, chr. cbn [reads_only]. split; intros x Hx.
      * apply Ascii.eqb_eq in Hx. subst x. reflexivity.
      * unfold Measure.figure_char. rewrite Hx. reflexivity.
  - intros sa ca sb cb (x & Hx & Hp & _). exists (String x "").
    split; [exact Hx|]. simpl. unfold Measure.figure_char.
    apply orb_prop in Hp as [-> | ->];
      [reflexivity | rewrite orb_true_r; reflexivity].
Qed.

Lemma search_close_group (text : string) (mt : rmatch) :
  search _close_re text = Some mt ->
  exists c w,
    group 1 mt = Some (String c w)
    /\ PyStr.all_chars Measure.figure_char (String c w) = true.
Proof.
  intros Hs. apply search_at_sound in Hs as (pos & pv & s & _ & Hhere).
  apply match_here_sound in Hhere as (st' & cs' & Hm & _ & Hgroups).
  apply _close_re_group in Hm as (c & w & Hg & HP).
  exists c, w. split; [|exact HP]. unfold group. rewrite Hgroups. exact Hg.
Qed.
End CloseFacts.

(** X10.  For a numeric query with context, the answer that replaces an
    unusable generation has one of three shapes: the label
    "BTC close price: " with a figure of digits, commas and dots; the label
    "Price: " with a figure of digits, signs and dots; or the first
    sentence of the best chunk.  The first label is the same whatever the
    asset of the chunk. *)
Theorem numeric_fallback_shapes :
  forall (retrieve : string -> nat -> list rag_chain.chunk)
         (gen : string -> nat -> string)
         (query : string) (k max_new_tokens : nat)
         (best : rag_chain.chunk) (rest : list rag_chain.chunk),
    take 4 (rag_chain._prioritize_chunks (retrieve query k) query) = best :: rest ->
    rag_chain._contains_numeric_request query = true ->
    rag_chain.poor_output
      (PyStr.strip (gen (rag_chain._build_prompt query (best :: rest))
                        max_new_tokens)) = true ->
    (exists g,
        fst (rag_chain.answer retrieve gen query k max_new_tokens)
        = "BTC close price: " +:+ g
        /\ g <> "" /\ PyStr.all_chars Measure.figure_char g = true)
    \/ (exists num,
           fst (rag_chain.answer retrieve gen query k max_new_tokens)
           = "Price: " +:+ num
           /\ num <> "" /\ PyStr.all_chars Measure.numeral_char num = true)
    \/ fst (rag_chain.answer retrieve gen query k max_new_tokens)
       = rag_chain._first_sentence (rag_chain.text best).
Proof.
  intros retrieve gen query k max_new_tokens best rest Htake Hnum Hpoor.
  unfold rag_chain.answer. cbv zeta. rewrite Htake, Hpoor, Hnum.
  destruct (if PyStr.contains "close" (PyStr.lower (rag_chain.text best))
            then Regex.search rag_chain._close_re (rag_chain.text best)
            else None) as [mt|] eqn:Hclose.
  - left. destruct (PyStr.contains "close" _); [|discriminate].
    apply search_close_group in Hclose as (c & w & Hg & HP).
    exists (String c w). rewrite Hg. split; [reflexivity|].
    split; [discriminate | exact HP].
  - destruct (PyStr.nonempty (rag_chain._extract_numeric_from_text
                                (rag_chain.text best))) eqn:Hne.
    + right. left. exists (rag_chain._extract_numeric_from_text
                             (rag_chain.text best)).
      split; [reflexivity|]. split.
      * intros Hempty. rewrite Hempty in Hne. discriminate.
      * apply extract_numeric_characters.
    + right. right. reflexivity.
Qed.

(** X10 witness: the chunk of the bitcoin bar, a numeric query and a silent
    generator. *)
Lemma numeric_fallback_shapes_witness :
  (exists g,
      fst (rag_chain.answer Samples.retrieve_btc Samples.gen_silent
                            "What was the BTC close price?" 6 100)
      = "BTC close price: " +:+ g
      /\ g <> "" /\ PyStr.all_chars Measure.figure_char g = true)
  \/ (exists num,
         fst (rag_chain.answer Samples.retrieve_btc Samples.gen_silent
                               "What was the BTC close price?" 6 100)
         = "Price: " +:+ num
         /\ num <> "" /\ PyStr.all_chars Measure.numeral_char num = true)
  \/ fst (rag_chain.answer Samples.retrieve_btc Samples.gen_silent
                           "What was the BTC close price?" 6 100)
     = rag_chain._first_sentence (rag_chain.text Samples.btc_chunk).
Proof.
  exact (numeric_fallback_shapes Samples.retrieve_btc Samples.gen_silent
           "What was the BTC close price?" 6 100 Samples.btc_chunk []
           eq_refl eq_refl eq_refl).
Defined.

Section PickFacts.
Import Regex RegexSpec PyVal ingest_api.

Lemma paren_then_word_suffix (s' s : string) :
  suffix_of s' s ->
  Measure.paren_then_word s' = true -> Measure.paren_then_word s = true.
Proof.
  intros (pre & ->) Hs'. induction pre as [|a pre IH]; [exact Hs'|].
  change (String a pre +:+ s') with (String a (pre +:+ s')).
  cbn [Measure.paren_then_word]. rewrite IH. apply orb_true_r.
Qed.

(** What a concatenation shows of its second part holds from where the
    first part starts. *)
Lemma Matches_Cat_tail (r1 r2 : regex) (st : input) (cs : caps) (st' : input)
      (cs' : caps) :
  Matches (Cat r1 r2) st cs st' cs' ->
  (forall st1 cs1, Matches r2 st1 cs1 st' cs' ->
                   Measure.paren_then_word (rest st1) = true) ->
  Measure.paren_then_word (rest st) = true.
Proof.
  intros (st1 & cs1 & H1 & H2) Htail.
  apply (paren_then_word_suffix (rest st1)).
  - exact (Matches_suffix _ _ _ _ _ H1).
  - exact (Htail _ _ H2).
Qed.

(** A closing parenthesis followed by a word boundary has a character of
    a word after it. *)
Lemma Matches_paren_boundary (st : input) (cs : caps) (st' : input) (cs' : caps) :
  Matches (Cat (chr ")") Bnd) st cs st' cs' ->
  Measure.paren_then_word (rest st) = true.
Proof.
  intros (st1 & cs1 & (c & Hrest & Hc & Hprev & _) & (_ & _ & Hb)).
  apply Ascii.eqb_eq in Hc. subst c.
  rewrite Hprev in Hb. rewrite Hrest. cbn [Measure.paren_then_word].
  change (wordp (Some ")"%char)) with false in Hb.
  rewrite xorb_false_l in Hb. rewrite Hb. reflexivity.
Qed.

Lemma pat_exact_paren (field_base market : string) (st : input) (cs : caps)
      (st' : input) (cs' : caps) :
  Matches (pat_exact field_base market) st cs st' cs' ->
  Measure.paren_then_word (rest st) = true.
Proof.
  intros Hm. unfold pat_exact in Hm. cbn [cat] in Hm.
  do 11 (eapply Matches_Cat_tail; [exact Hm | clear Hm; intros ? ? Hm]).
  exact (Matches_paren_boundary _ _ _ _ Hm).
Qed.

Lemma pat_any_paren (field_base : string) (st : input) (cs : caps)
      (st' : input) (cs' : caps) :
  Matches (pat_any field_base) st cs st' cs' ->
  Measure.paren_then_word (rest st) = true.
Proof.
  intros Hm. unfold pat_any in Hm. cbn [cat] in Hm.
  do 11 (eapply Matches_Cat_tail; [exact Hm | clear Hm; intros ? ? Hm]).
  exact (Matches_paren_boundary _ _ _ _ Hm).
Qed.

Lemma matches_needs (r : regex) (k : string) :
  (forall st cs st' cs', Matches r st cs st' cs' ->
                         Measure.paren_then_word (rest st) = true) ->
  Measure.paren_then_word k = false -> matches r k = false.
Proof.
  intros Hr Hk. unfold matches. apply bool_decide_eq_false.
  intros [mt Hs]. unfold search in Hs.
  apply search_at_sound in Hs as (pos & pv & s & Hsuf & Hhere).
  apply match_here_sound in Hhere as (st' & cs' & Hm & _).
  apply Hr in Hm. cbn [rest] in Hm.
  rewrite (paren_then_word_suffix _ _ Hsuf Hm) in Hk. discriminate.
Qed.

Lemma first_value_none (p : string -> bool) (r : row) :
  (forall k, In k (map fst r) -> p k = false) -> first_value p r = None.
Proof.
  induction r as [|[k v] r IH]; simpl; intros Hall; [reflexivity|].
  rewrite (Hall k (or_introl eq_refl)). apply IH.
  intros k' Hin. apply Hall. right. exact Hin.
Qed.
End PickFacts.

(** X24.  Both patterns of [_pick_crypto_price] end in a closing
    parenthesis followed by a word boundary, so they match only a key in
    which some closing parenthesis is followed by a letter, a digit or an
    underscore.  On a row without such a key (the keys that end in
    "(USD)" are of this kind) neither pattern tier finds anything, and the
    function returns the value of the first key that contains the name of
    the field, whatever its market, or [None]. *)
Theorem pick_crypto_price_pattern_tiers :
  forall (row : PyVal.row) (field_base market : string),
    (forall k, In k (map fst row) -> Measure.paren_then_word k = false) ->
    (forall k, In k (map fst row) ->
               ingest_api.matches (ingest_api.pat_exact field_base market) k = false
               /\ ingest_api.matches (ingest_api.pat_any field_base) k = false)
    /\ ingest_api._pick_crypto_price row field_base market
       = default PyVal.PNone
           (PyVal.first_value
              (fun k => PyStr.contains (PyStr.lower field_base) (PyStr.lower k))
              row).
Proof.
  intros row field_base market Hkeys.
  assert (Hexact : forall k, In k (map fst row) ->
             ingest_api.matches (ingest_api.pat_exact field_base market) k = false).
  { intros k Hin. apply matches_needs; [|exact (Hkeys k Hin)].
    intros st cs st' cs'. apply pat_exact_paren. }
  assert (Hany : forall k, In k (map fst row) ->
             ingest_api.matches (ingest_api.pat_any field_base) k = false).
  { intros k Hin. apply matches_needs; [|exact (Hkeys k Hin)].
    intros st cs st' cs'. apply pat_any_paren. }
  split.
  - intros k Hin. split; [exact (Hexact k Hin) | exact (Hany k Hin)].
  - unfold ingest_api._pick_crypto_price.
    rewrite (first_value_none _ _ Hexact), (first_value_none _ _ Hany).
    destruct (PyVal.first_value _ row); reflexivity.
Qed.

(** X24 witness: asked for the close in dollars on a row quoted in euros
    and in dollars, the function returns the euro figure. *)
Lemma pick_crypto_price_pattern_tiers_witness :
  ingest_api._pick_crypto_price Samples.two_market_row "close" "USD"
  = PyVal.PStr "39000.00".
Proof.
  destruct (pick_crypto_price_pattern_tiers Samples.two_market_row "close" "USD")
    as [_ Hpick].
  - intros k [<- | [<- | []]]; reflexivity.
  - rewrite Hpick. reflexivity.
Defined.
